(** * pkg/term/console_windows.go: the ANSI-to-Win32 console translator

    A shallow embedding of the Windows console emulation layer
    ([console_windows.go]) and the properties of its clear-range
    calculator, SGR attribute translator, output dispatcher and key
    encoder.

    Go's fixed-width integers are carried as [Z] with the wrap-around of
    every arithmetic operation written out; a Go [error] is a value of
    [error] ([None] for [nil]); a run-time panic is the explicit outcome
    [Panicked]. The Win32 procedures are an interface ([Kernel32]) over an
    arbitrary world type, and the functions that call them are written in
    a state-and-panic monad over that world. The two mutexes of
    [WindowsTerminal] guard against concurrent callers only and have no
    counterpart in this sequential model. *)

From Stdlib Require Import ZArith List String Ascii Bool Lia.
Import ListNotations.

Local Open Scope string_scope.
Local Open Scope list_scope.
Local Open Scope Z_scope.

(** ** Machine integers *)

Module GoInt.

(** Conversion to [int16] (Go's [SHORT]): two's-complement wrap-around. *)
Definition int16 (z : Z) : Z := (z + 32768) mod 65536 - 32768.

(** Conversion to [uint16] (Go's [WORD], [WCHAR]). *)
Definition uint16 (z : Z) : Z := z mod 65536.

(** Conversion to [uint32] (Go's [DWORD]); a negative [int16] is
    sign-extended, which on [Z] is the same reduction modulo 2^32. *)
Definition uint32 (z : Z) : Z := z mod 4294967296.

Definition is_int16 (z : Z) : Prop := -32768 <= z <= 32767.
Definition is_uint16 (z : Z) : Prop := 0 <= z < 65536.
Definition is_uint32 (z : Z) : Prop := 0 <= z < 4294967296.

Definition sub16 (a b : Z) : Z := int16 (a - b).
Definition add16 (a b : Z) : Z := int16 (a + b).
Definition mul16 (a b : Z) : Z := int16 (a * b).
Definition add32 (a b : Z) : Z := uint32 (a + b).

End GoInt.

Import GoInt.

(** Go's [a &^ b] (bit clear), [a | b], [a & b] and [a ^ b]. *)
Infix ".&^" := Z.ldiff (at level 40, left associativity).
Infix ".|" := Z.lor (at level 50, left associativity).
Infix ".&" := Z.land (at level 40, left associativity).
Infix ".^" := Z.lxor (at level 50, left associativity).

(** ** Errors and panics *)

(** The Go [error] values this file produces or passes on. *)
Inductive error : Type :=
| Errno (code : Z)
| EINVAL
| NumError (num : string) (isRange : bool).

(** A Go call either returns or panics. *)
Inductive Outcome (A : Type) : Type :=
| Returned (a : A)
| Panicked (msg : string).

Arguments Returned {A} a.
Arguments Panicked {A} msg.

(** ** Console types *)

(** [COORD]: a pair of [SHORT]s. *)
Record COORD : Type := mkCOORD { X : Z; Y : Z }.

Record SMALL_RECT : Type :=
  mkSMALL_RECT { Left : Z; Top : Z; Right : Z; Bottom : Z }.

Record CONSOLE_SCREEN_BUFFER_INFO : Type := mkCSBI {
  Size : COORD;
  CursorPosition : COORD;
  Attributes : Z;
  Window : SMALL_RECT;
  MaximumWindowSize : COORD
}.

(** [CONSOLE_CURSOR_INFO]; its field [Size] is [CursorSize] here, the
    name [Size] being taken by the screen buffer info. *)
Record CONSOLE_CURSOR_INFO : Type :=
  mkCURSOR_INFO { CursorSize : Z; Visible : Z }.

Record KEY_EVENT_RECORD : Type := mkKEY_EVENT_RECORD {
  KeyDown : Z;
  RepeatCount : Z;
  VirtualKeyCode : Z;
  VirtualScanCode : Z;
  UnicodeChar : Z;
  ControlKeyState : Z
}.

Record INPUT_RECORD : Type :=
  mkINPUT_RECORD { EventType : Z; KeyEvent : KEY_EVENT_RECORD }.

(** The zero values Go gives to a declared variable. *)
Definition zeroCOORD : COORD := mkCOORD 0 0.
Definition zeroKEY_EVENT_RECORD : KEY_EVENT_RECORD :=
  mkKEY_EVENT_RECORD 0 0 0 0 0 0.
Definition zeroINPUT_RECORD : INPUT_RECORD :=
  mkINPUT_RECORD 0 zeroKEY_EVENT_RECORD.

Definition COORD_ok (c : COORD) : Prop := is_int16 (X c) /\ is_int16 (Y c).

(** ** Constants *)

Definition FOREGROUND_BLUE : Z := 1.
Definition FOREGROUND_GREEN : Z := 2.
Definition FOREGROUND_RED : Z := 4.
Definition FOREGROUND_INTENSITY : Z := 8.
Definition FOREGROUND_MASK_SET : Z := 0x000F.
Definition FOREGROUND_MASK_UNSET : Z := 0xFFF0.

Definition BACKGROUND_BLUE : Z := 16.
Definition BACKGROUND_GREEN : Z := 32.
Definition BACKGROUND_RED : Z := 64.
Definition BACKGROUND_INTENSITY : Z := 128.
Definition BACKGROUND_MASK_SET : Z := 0x00F0.
Definition BACKGROUND_MASK_UNSET : Z := 0xFF0F.

Definition COMMON_LVB_REVERSE_VIDEO : Z := 0x4000.
Definition COMMON_LVB_UNDERSCORE : Z := 0x8000.

Definition ANSI_ATTR_RESET : Z := 0.
Definition ANSI_ATTR_BOLD : Z := 1.
Definition ANSI_ATTR_DIM : Z := 2.
Definition ANSI_ATTR_UNDERLINE : Z := 4.
Definition ANSI_ATTR_BLINK : Z := 5.
Definition ANSI_ATTR_REVERSE : Z := 7.
Definition ANSI_ATTR_INVISIBLE : Z := 8.

Definition ANSI_ATTR_UNDERLINE_OFF : Z := 24.
Definition ANSI_ATTR_BLINK_OFF : Z := 25.
Definition ANSI_ATTR_REVERSE_OFF : Z := 27.
Definition ANSI_ATTR_INVISIBLE_OFF : Z := 8.

Definition ANSI_FOREGROUND_BLACK : Z := 30.
Definition ANSI_FOREGROUND_RED : Z := 31.
Definition ANSI_FOREGROUND_GREEN : Z := 32.
Definition ANSI_FOREGROUND_YELLOW : Z := 33.
Definition ANSI_FOREGROUND_BLUE : Z := 34.
Definition ANSI_FOREGROUND_MAGENTA : Z := 35.
Definition ANSI_FOREGROUND_CYAN : Z := 36.
Definition ANSI_FOREGROUND_WHITE : Z := 37.
Definition ANSI_FOREGROUND_DEFAULT : Z := 39.

Definition ANSI_BACKGROUND_BLACK : Z := 40.
Definition ANSI_BACKGROUND_RED : Z := 41.
Definition ANSI_BACKGROUND_GREEN : Z := 42.
Definition ANSI_BACKGROUND_YELLOW : Z := 43.
Definition ANSI_BACKGROUND_BLUE : Z := 44.
Definition ANSI_BACKGROUND_MAGENTA : Z := 45.
Definition ANSI_BACKGROUND_CYAN : Z := 46.
Definition ANSI_BACKGROUND_WHITE : Z := 47.
Definition ANSI_BACKGROUND_DEFAULT : Z := 49.

Definition STD_INPUT_HANDLE : Z := -10.
Definition STD_OUTPUT_HANDLE : Z := -11.

Definition VK_END : Z := 0x23.
Definition VK_HOME : Z := 0x24.
Definition VK_LEFT : Z := 0x25.
Definition VK_UP : Z := 0x26.
Definition VK_RIGHT : Z := 0x27.
Definition VK_DOWN : Z := 0x28.
Definition VK_INSERT : Z := 0x2D.
Definition VK_DELETE : Z := 0x2E.
Definition VK_F1 : Z := 0x70.
Definition VK_F2 : Z := 0x71.
Definition VK_F3 : Z := 0x72.
Definition VK_F4 : Z := 0x73.
Definition VK_F5 : Z := 0x74.
Definition VK_F6 : Z := 0x75.
Definition VK_F7 : Z := 0x76.
Definition VK_F8 : Z := 0x77.
Definition VK_F9 : Z := 0x78.
Definition VK_F10 : Z := 0x79.
Definition VK_F11 : Z := 0x7A.
Definition VK_F12 : Z := 0x7B.

Definition LEFT_ALT_PRESSED : Z := 0x0002.
Definition LEFT_CTRL_PRESSED : Z := 0x0008.
Definition RIGHT_ALT_PRESSED : Z := 0x0001.
Definition RIGHT_CTRL_PRESSED : Z := 0x0004.
Definition SHIFT_PRESSED : Z := 0x0010.

(** [ESC], the byte [0x1B]. *)
Definition ESC : string := String (ascii_of_nat 27) EmptyString.

Definition KEY_CONTROL_PARAM_2 : string := ";2".
Definition KEY_CONTROL_PARAM_3 : string := ";3".
Definition KEY_CONTROL_PARAM_4 : string := ";4".
Definition KEY_CONTROL_PARAM_5 : string := ";5".
Definition KEY_CONTROL_PARAM_6 : string := ";6".
Definition KEY_CONTROL_PARAM_7 : string := ";7".
Definition KEY_CONTROL_PARAM_8 : string := ";8".
Definition KEY_ESC_N : string := (ESC ++ "N")%string.

(** ** The clear-range calculator *)

(** [getNumberOfChars]: the number of blanks that clear the cells from
    [fromCoord] to [toCoord], as a [uint32]. *)
Definition getNumberOfChars (fromCoord toCoord screenSize : COORD) : Z :=
  if (X fromCoord <? 0) || (Y fromCoord <? 0)
     || (X toCoord <? 0) || (Y toCoord <? 0) then 0
  else if (X fromCoord >=? X screenSize) || (Y fromCoord >=? Y screenSize)
          || (X toCoord >=? X screenSize) || (Y toCoord >=? Y screenSize) then 0
  else if Y fromCoord >? Y toCoord then 0
  else if Y fromCoord =? Y toCoord then
    add32 (uint32 (sub16 (X toCoord) (X fromCoord))) 1
  else if Y fromCoord <? Y toCoord then
    let retValue :=
      add32 (add32 (uint32 (sub16 (X screenSize) (X fromCoord)))
                   (uint32 (X toCoord))) 1 in
    let linesBetween := sub16 (sub16 (Y toCoord) (Y fromCoord)) 1 in
    if linesBetween >? 0 then
      add32 retValue (uint32 (mul16 linesBetween (X screenSize)))
    else retValue
  else 0.

(** A coordinate inside a buffer of the given size. *)
Definition inBounds (c screenSize : COORD) : Prop :=
  0 <= X c < X screenSize /\ 0 <= Y c < Y screenSize.

(** A coordinate one of the two validity guards rejects. *)
Definition outOfBounds (c screenSize : COORD) : Prop :=
  X c < 0 \/ Y c < 0 \/ X c >= X screenSize \/ Y c >= Y screenSize.

(** [marshal]: a [COORD] packed into the 32 bits the Win32 calls take. *)
Definition marshal (c : COORD) : Z :=
  uint32 (uint32 (Z.shiftl (uint32 (uint16 (Y c))) 16) .| uint32 (uint16 (X c))).

(** ** The SGR attribute translator *)

(** [getWindowsTextAttributeForAnsiValue]: one SGR value applied to the
    attribute word. The [switch] is the chain of comparisons below, in
    the order of the source; its [default] arm panics. *)
Definition getWindowsTextAttributeForAnsiValue (originalFlag ansiValue : Z)
  : Outcome (Z * option error) :=
  let flag := uint16 originalFlag in
  let flag := if flag =? 0 then FOREGROUND_MASK_SET else flag in
  let ret (f : Z) : Outcome (Z * option error) := Returned (f, None) in
  if ansiValue =? ANSI_ATTR_RESET then
    ret (flag .&^ COMMON_LVB_UNDERSCORE .&^ BACKGROUND_INTENSITY
         .| FOREGROUND_INTENSITY)
  else if ansiValue =? ANSI_ATTR_INVISIBLE then ret flag
  else if ansiValue =? ANSI_ATTR_UNDERLINE then
    ret (flag .| COMMON_LVB_UNDERSCORE)
  else if ansiValue =? ANSI_ATTR_BLINK then
    ret (flag .| BACKGROUND_INTENSITY)
  else if ansiValue =? ANSI_ATTR_UNDERLINE_OFF then
    ret (flag .&^ COMMON_LVB_UNDERSCORE)
  else if ansiValue =? ANSI_ATTR_BLINK_OFF then
    ret (flag .&^ BACKGROUND_INTENSITY)
  else if ansiValue =? ANSI_ATTR_BOLD then
    ret (flag .| FOREGROUND_INTENSITY)
  else if ansiValue =? ANSI_ATTR_DIM then
    ret (flag .&^ FOREGROUND_INTENSITY)
  else if (ansiValue =? ANSI_ATTR_REVERSE)
          || (ansiValue =? ANSI_ATTR_REVERSE_OFF) then
    let foreground := flag .& FOREGROUND_MASK_SET in
    let background := flag .& BACKGROUND_MASK_SET in
    ret ((flag .& BACKGROUND_MASK_UNSET .& FOREGROUND_MASK_UNSET)
         .| uint16 (Z.shiftl foreground 4) .| Z.shiftr background 4)
  else if ansiValue =? ANSI_FOREGROUND_DEFAULT then
    ret (flag .| FOREGROUND_MASK_SET)
  else if ansiValue =? ANSI_FOREGROUND_BLACK then
    ret (flag .^ (FOREGROUND_RED .| FOREGROUND_GREEN .| FOREGROUND_BLUE))
  else if ansiValue =? ANSI_FOREGROUND_RED then
    ret ((flag .& FOREGROUND_MASK_UNSET) .| FOREGROUND_RED)
  else if ansiValue =? ANSI_FOREGROUND_GREEN then
    ret ((flag .& FOREGROUND_MASK_UNSET) .| FOREGROUND_GREEN)
  else if ansiValue =? ANSI_FOREGROUND_YELLOW then
    ret ((flag .& FOREGROUND_MASK_UNSET) .| FOREGROUND_RED .| FOREGROUND_GREEN)
  else if ansiValue =? ANSI_FOREGROUND_BLUE then
    ret ((flag .& FOREGROUND_MASK_UNSET) .| FOREGROUND_BLUE)
  else if ansiValue =? ANSI_FOREGROUND_MAGENTA then
    ret ((flag .& FOREGROUND_MASK_UNSET) .| FOREGROUND_RED .| FOREGROUND_BLUE)
  else if ansiValue =? ANSI_FOREGROUND_CYAN then
    ret ((flag .& FOREGROUND_MASK_UNSET) .| FOREGROUND_GREEN .| FOREGROUND_BLUE)
  else if ansiValue =? ANSI_FOREGROUND_WHITE then
    ret ((flag .& FOREGROUND_MASK_UNSET)
         .| FOREGROUND_RED .| FOREGROUND_GREEN .| FOREGROUND_BLUE)
  else if ansiValue =? ANSI_BACKGROUND_DEFAULT then
    ret (flag .& BACKGROUND_MASK_UNSET)
  else if ansiValue =? ANSI_BACKGROUND_BLACK then
    ret (flag .& BACKGROUND_MASK_UNSET)
  else if ansiValue =? ANSI_BACKGROUND_RED then
    ret ((flag .& BACKGROUND_MASK_UNSET) .| BACKGROUND_RED)
  else if ansiValue =? ANSI_BACKGROUND_GREEN then
    ret ((flag .& BACKGROUND_MASK_UNSET) .| BACKGROUND_GREEN)
  else if ansiValue =? ANSI_BACKGROUND_YELLOW then
    ret ((flag .& BACKGROUND_MASK_UNSET) .| BACKGROUND_RED .| BACKGROUND_GREEN)
  else if ansiValue =? ANSI_BACKGROUND_BLUE then
    ret ((flag .& BACKGROUND_MASK_UNSET) .| BACKGROUND_BLUE)
  else if ansiValue =? ANSI_BACKGROUND_MAGENTA then
    ret ((flag .& BACKGROUND_MASK_UNSET) .| BACKGROUND_RED .| BACKGROUND_BLUE)
  else if ansiValue =? ANSI_BACKGROUND_CYAN then
    ret ((flag .& BACKGROUND_MASK_UNSET) .| BACKGROUND_GREEN .| BACKGROUND_BLUE)
  else if ansiValue =? ANSI_BACKGROUND_WHITE then
    ret ((flag .& BACKGROUND_MASK_UNSET)
         .| BACKGROUND_RED .| BACKGROUND_GREEN .| BACKGROUND_BLUE)
  else Panicked "Should not reach here".

(** The case labels of the [switch], in source order. *)
Definition sgrCases : list Z :=
  [ ANSI_ATTR_RESET; ANSI_ATTR_INVISIBLE; ANSI_ATTR_UNDERLINE; ANSI_ATTR_BLINK;
    ANSI_ATTR_UNDERLINE_OFF; ANSI_ATTR_BLINK_OFF; ANSI_ATTR_BOLD; ANSI_ATTR_DIM;
    ANSI_ATTR_REVERSE; ANSI_ATTR_REVERSE_OFF;
    ANSI_FOREGROUND_DEFAULT; ANSI_FOREGROUND_BLACK; ANSI_FOREGROUND_RED;
    ANSI_FOREGROUND_GREEN; ANSI_FOREGROUND_YELLOW; ANSI_FOREGROUND_BLUE;
    ANSI_FOREGROUND_MAGENTA; ANSI_FOREGROUND_CYAN; ANSI_FOREGROUND_WHITE;
    ANSI_BACKGROUND_DEFAULT; ANSI_BACKGROUND_BLACK; ANSI_BACKGROUND_RED;
    ANSI_BACKGROUND_GREEN; ANSI_BACKGROUND_YELLOW; ANSI_BACKGROUND_BLUE;
    ANSI_BACKGROUND_MAGENTA; ANSI_BACKGROUND_CYAN; ANSI_BACKGROUND_WHITE ].

(** The values of the policy table of the specification (section 4.2):
    the case labels without [8]. *)
Definition sgrDocumented : list Z :=
  [0; 1; 2; 4; 24; 5; 25; 7; 27;
   30; 31; 32; 33; 34; 35; 36; 37; 39;
   40; 41; 42; 43; 44; 45; 46; 47; 49].

(** The word every case starts from: a zero word is first widened. *)
Definition widen (bits : Z) : Z :=
  if uint16 bits =? 0 then FOREGROUND_MASK_SET else uint16 bits.

(** The three colour bits an SGR foreground value [30 + c] stands for
    (ANSI colour [c]: bit 0 red, bit 1 green, bit 2 blue). *)
Definition foregroundRGB (ansiValue : Z) : Z :=
  let c := ansiValue - ANSI_FOREGROUND_BLACK in
  (if Z.testbit c 0 then FOREGROUND_RED else 0)
  .| (if Z.testbit c 1 then FOREGROUND_GREEN else 0)
  .| (if Z.testbit c 2 then FOREGROUND_BLUE else 0).

(** Two translator steps in a row, the second on the word the first
    returned. *)
Definition translateTwice (bits v1 v2 : Z) : Outcome (Z * option error) :=
  match getWindowsTextAttributeForAnsiValue bits v1 with
  | Returned (mid, None) => getWindowsTextAttributeForAnsiValue mid v2
  | other => other
  end.

(** Exhaustive check of a predicate over [fuel] consecutive integers. *)
Fixpoint check_from (fuel : nat) (z : Z) (P : Z -> bool) : bool :=
  match fuel with
  | O => true
  | S fuel' => P z && check_from fuel' (z + 1) P
  end.

Definition all_words (P : Z -> bool) : bool := check_from (Z.to_nat 65536) 0 P.

(** ** Numeric parameters *)

Definition isDigit (c : ascii) : bool :=
  let n := Z.of_nat (nat_of_ascii c) in (48 <=? n) && (n <=? 57).

Definition digitValue (c : ascii) : Z := Z.of_nat (nat_of_ascii c) - 48.

(** The decimal digits of a string, most significant first; [None] on a
    character that is no digit. *)
Fixpoint parseDigits (s : string) (acc : Z) : option Z :=
  match s with
  | EmptyString => Some acc
  | String c rest =>
      if isDigit c then parseDigits rest (10 * acc + digitValue c) else None
  end.

(** Go's [strconv.ParseInt(s, 10, 16)]: an optional sign and one or more
    decimal digits; a value outside [int16] is clamped to the nearest
    bound and reported as a range error; anything else is a syntax error
    with value [0]. *)
Definition strconv_ParseInt_10_16 (s : string) : Z * option error :=
  match s with
  | EmptyString => (0, Some (NumError s false))
  | String c rest =>
      let neg := Ascii.eqb c "-" in
      let body := if Ascii.eqb c "+" || neg then rest else s in
      match body with
      | EmptyString => (0, Some (NumError s false))
      | _ =>
          match parseDigits body 0 with
          | None => (0, Some (NumError s false))
          | Some un =>
              if negb neg && (un >=? 32768) then (32767, Some (NumError s true))
              else if neg && (un >? 32768) then (-32768, Some (NumError s true))
              else (if neg then - un else un, None)
          end
      end
  end.

(** The parsed command. The type is declared in another file of the
    package; these are the two fields this file reads. *)
Record AnsiCommand : Type :=
  mkAnsiCommand { Command : string; Parameters : list string }.

(** The [m] command's loop: every parameter, left to right, through the
    translator; the loop leaves at the first error, and a panic of the
    translator leaves the whole call. The error of [strconv.ParseInt] is
    dropped and its value used as it is. *)
Fixpoint sgrFold (parameters : list string) (flag : Z)
  : Outcome (Z * option error) :=
  match parameters with
  | [] => Returned (flag, None)
  | e :: rest =>
      let value := fst (strconv_ParseInt_10_16 e) in
      match getWindowsTextAttributeForAnsiValue flag (int16 value) with
      | Panicked msg => Panicked msg
      | Returned (flag', Some err) => Returned (flag', Some err)
      | Returned (flag', None) => sgrFold rest flag'
      end
  end.

(** ** The console as an interface *)

(** What a [LazyProc.Call] hands back: the first result register and the
    last-error value. *)
Record CallResult : Type := mkCallResult { r1 : Z; lastErr : option error }.

(** The Win32 procedures of [kernel32.dll] this file calls, over a world
    [W]. A procedure that fills a structure through a pointer returns the
    structure's content after the call. *)
Record Kernel32 (W : Type) : Type := mkKernel32 {
  GetStdHandle : Z -> W -> (Z * option error) * W;
  getConsoleScreenBufferInfoProc :
    Z -> W -> (CallResult * CONSOLE_SCREEN_BUFFER_INFO) * W;
  setConsoleCursorPositionProc : Z -> Z -> W -> CallResult * W;
  setConsoleTextAttributeProc : Z -> Z -> W -> CallResult * W;
  fillConsoleOutputCharacterProc : Z -> Z -> Z -> Z -> W -> CallResult * W;
  readConsoleInputProc :
    Z -> Z -> W -> (CallResult * list INPUT_RECORD * Z) * W;
  getNumberOfConsoleInputEventsProc : Z -> W -> (CallResult * Z) * W;
  getConsoleCursorInfoProc : Z -> W -> (CallResult * CONSOLE_CURSOR_INFO) * W;
  setConsoleCursorInfoProc : Z -> CONSOLE_CURSOR_INFO -> W -> CallResult * W
}.

Arguments GetStdHandle {W} _ _ _.
Arguments getConsoleScreenBufferInfoProc {W} _ _ _.
Arguments setConsoleCursorPositionProc {W} _ _ _ _.
Arguments setConsoleTextAttributeProc {W} _ _ _ _.
Arguments fillConsoleOutputCharacterProc {W} _ _ _ _ _ _.
Arguments readConsoleInputProc {W} _ _ _ _.
Arguments getNumberOfConsoleInputEventsProc {W} _ _ _.
Arguments getConsoleCursorInfoProc {W} _ _ _.
Arguments setConsoleCursorInfoProc {W} _ _ _ _.

(** ** The state-and-panic monad *)

Definition M (W A : Type) : Type := W -> Outcome A * W.

Definition ret {W A} (a : A) : M W A := fun w => (Returned a, w).

Definition panic {W A} (msg : string) : M W A := fun w => (Panicked msg, w).

Definition bind {W A B} (m : M W A) (k : A -> M W B) : M W B :=
  fun w =>
    match m w with
    | (Returned a, w') => k a w'
    | (Panicked msg, w') => (Panicked msg, w')
    end.

(** A native call: it always returns. *)
Definition call {W A} (f : W -> A * W) : M W A :=
  fun w => let (a, w') := f w in (Returned a, w').

Notation "x <- m ;; k" := (bind m (fun x => k))
  (at level 61, m at next level, right associativity).
Notation "' pat <- m ;; k" := (bind m (fun x => match x with pat => k end))
  (at level 61, pat pattern, m at next level, right associativity).

(** The error a failed native call is reported with. *)
Definition errOrEINVAL (err : option error) : option error :=
  match err with
  | Some e => Some e
  | None => Some EINVAL
  end.

(** ** Erase ranges *)

(** The inner [switch] of the [J] branch: the start of the range, the
    cursor to restore and the end of the range. A value other than 0, 1
    and 2 leaves the three zero-valued. *)
Definition eraseDisplayRange (screenBufferInfo : CONSOLE_SCREEN_BUFFER_INFO)
  (value : Z) : COORD * COORD * COORD :=
  if value =? 0 then
    (CursorPosition screenBufferInfo,
     CursorPosition screenBufferInfo,
     mkCOORD (sub16 (X (MaximumWindowSize screenBufferInfo)) 1)
             (sub16 (Y (MaximumWindowSize screenBufferInfo)) 1))
  else if value =? 1 then
    (mkCOORD 0 0,
     CursorPosition screenBufferInfo,
     CursorPosition screenBufferInfo)
  else if value =? 2 then
    (mkCOORD 0 0,
     mkCOORD 0 0,
     mkCOORD (sub16 (X (MaximumWindowSize screenBufferInfo)) 1)
             (sub16 (Y (MaximumWindowSize screenBufferInfo)) 1))
  else (zeroCOORD, zeroCOORD, zeroCOORD).

(** The inner [switch] of the [K] branch, in the same order: start,
    cursor, end. *)
Definition eraseLineRange (screenBufferInfo : CONSOLE_SCREEN_BUFFER_INFO)
  (value : Z) : COORD * COORD * COORD :=
  if value =? 0 then
    (CursorPosition screenBufferInfo,
     CursorPosition screenBufferInfo,
     mkCOORD (sub16 (X (MaximumWindowSize screenBufferInfo)) 1)
             (Y (CursorPosition screenBufferInfo)))
  else if value =? 1 then
    (mkCOORD 0 (Y (CursorPosition screenBufferInfo)),
     CursorPosition screenBufferInfo,
     CursorPosition screenBufferInfo)
  else if value =? 2 then
    (mkCOORD 0 (sub16 (Y (MaximumWindowSize screenBufferInfo)) 1),
     mkCOORD 0 (sub16 (Y (MaximumWindowSize screenBufferInfo)) 1),
     mkCOORD (sub16 (X (MaximumWindowSize screenBufferInfo)) 1)
             (sub16 (Y (MaximumWindowSize screenBufferInfo)) 1))
  else (zeroCOORD, zeroCOORD, zeroCOORD).

(** ** The output direction *)

Section Output.

Variable W : Type.
Variable k32 : Kernel32 W.

(** Three helpers of the package that are declared in another file:
    the parser of a command and the two accessors of its parameters.
    They are taken as functions that return on every input. *)
Variable parseAnsiCommand : string -> AnsiCommand.
Variable getParam : AnsiCommand -> Z -> string.
Variable parseInt16OrDefault : string -> Z -> Z * option error.

Definition SetCursorVisible (fileDesc isVisible : Z) : M W (bool * option error) :=
  '(res, cursorInfo) <- call (getConsoleCursorInfoProc k32 fileDesc) ;;
  if r1 res =? 0 then ret (false, errOrEINVAL (lastErr res))
  else
    let cursorInfo := mkCURSOR_INFO (CursorSize cursorInfo) isVisible in
    res <- call (setConsoleCursorInfoProc k32 fileDesc cursorInfo) ;;
    if r1 res =? 0 then ret (false, errOrEINVAL (lastErr res))
    else ret (true, None).

Definition GetConsoleScreenBufferInfo (fileDesc : Z)
  : M W (option CONSOLE_SCREEN_BUFFER_INFO * option error) :=
  '(res, info) <- call (getConsoleScreenBufferInfoProc k32 fileDesc) ;;
  if r1 res =? 0 then ret (None, errOrEINVAL (lastErr res))
  else ret (Some info, None).

Definition setConsoleTextAttribute (fileDesc attribute : Z)
  : M W (bool * option error) :=
  res <- call (setConsoleTextAttributeProc k32 fileDesc attribute) ;;
  if r1 res =? 0 then ret (false, errOrEINVAL (lastErr res))
  else ret (true, None).

Definition fillConsoleOutputCharacter (fileDesc fillChar length : Z)
  (writeCord : COORD) : M W (bool * option error) :=
  res <- call (fillConsoleOutputCharacterProc k32 fileDesc fillChar length
                 (marshal writeCord)) ;;
  if r1 res =? 0 then ret (false, errOrEINVAL (lastErr res))
  else ret (true, None).

Definition clearDisplayRange (fileDesc fillChar : Z)
  (fromCoord toCoord windowSize : COORD) : M W (bool * option error) :=
  let totalChars := getNumberOfChars fromCoord toCoord windowSize in
  if totalChars >? 0 then
    '(r, err) <- fillConsoleOutputCharacter fileDesc fillChar totalChars fromCoord ;;
    if negb r then ret (false, errOrEINVAL err) else ret (true, None)
  else ret (true, None).

(** [setConsoleCursorPosition]; [column] and [line] are [int16]s. With
    no error the snapshot pointer is read; were it [nil], Go would
    panic. *)
Definition setConsoleCursorPosition (fileDesc : Z) (isRelative : bool)
  (column line : Z) : M W (bool * option error) :=
  '(screenBufferInfo, err) <- GetConsoleScreenBufferInfo fileDesc ;;
  match err with
  | None =>
      match screenBufferInfo with
      | None => panic "invalid memory address or nil pointer dereference"
      | Some screenBufferInfo =>
          let position :=
            if isRelative then
              mkCOORD (add16 (X (CursorPosition screenBufferInfo)) column)
                      (add16 (Y (CursorPosition screenBufferInfo)) line)
            else mkCOORD column line in
          let bits := marshal position in
          res <- call (setConsoleCursorPositionProc k32 fileDesc bits) ;;
          if r1 res =? 0 then ret (false, errOrEINVAL (lastErr res))
          else ret (true, None)
      end
  | Some e => ret (false, Some e)
  end.

(** The tail shared by the cursor branches: leave with the error when
    the call did not succeed, fall out of the [switch] otherwise. *)
Definition leave (n : Z) (res : bool * option error) : M W (Z * option error) :=
  let (r, err) := res in
  if negb r then ret (n, err) else ret (n, None).

(** The body of the [J] and [K] branches once the snapshot is there. *)
Definition eraseWith (n handle : Z) (range : COORD * COORD * COORD)
  (windowSize : COORD) : M W (Z * option error) :=
  let '(start, cursor, end_) := range in
  '(r, err) <- clearDisplayRange handle 32 start end_ windowSize ;;
  if negb r then ret (n, err)
  else
    res <- setConsoleCursorPosition handle false (int16 (X cursor)) (int16 (Y cursor)) ;;
    leave n res.

(** [HandleOutputCommand]: the command is a byte slice, here a [string],
    and [len(command)] its length. *)
Definition HandleOutputCommand (command : string) : M W (Z * option error) :=
  let n := Z.of_nat (String.length command) in
  let parsedCommand := parseAnsiCommand command in
  '(handle, _) <- call (GetStdHandle k32 STD_OUTPUT_HANDLE) ;;
  let cmd := Command parsedCommand in
  if String.eqb cmd "m" then
    match sgrFold (Parameters parsedCommand) 0 with
    | Panicked msg => panic msg
    | Returned (_, Some err) => ret (n, Some err)
    | Returned (flag, None) =>
        res <- setConsoleTextAttribute handle flag ;;
        leave n res
    end
  else if String.eqb cmd "H" || String.eqb cmd "f" then
    let '(line, err) := parseInt16OrDefault (getParam parsedCommand 0) 1 in
    match err with
    | Some e => ret (n, Some e)
    | None =>
        let '(column, err) := parseInt16OrDefault (getParam parsedCommand 1) 1 in
        match err with
        | Some e => ret (n, Some e)
        | None =>
            res <- setConsoleCursorPosition handle false
                     (int16 (sub16 column 1)) (int16 (sub16 line 1)) ;;
            leave n res
        end
    end
  else if String.eqb cmd "A" then
    let '(value, err) := parseInt16OrDefault (getParam parsedCommand 0) 1 in
    match err with
    | Some e => ret (n, Some e)
    | None =>
        res <- setConsoleCursorPosition handle true 0 (mul16 (-1) value) ;;
        leave n res
    end
  else if String.eqb cmd "B" then
    let '(value, err) := parseInt16OrDefault (getParam parsedCommand 0) 1 in
    match err with
    | Some e => ret (n, Some e)
    | None =>
        res <- setConsoleCursorPosition handle true 0 value ;;
        leave n res
    end
  else if String.eqb cmd "C" then
    let '(value, err) := parseInt16OrDefault (getParam parsedCommand 0) 1 in
    match err with
    | Some e => ret (n, Some e)
    | None =>
        res <- setConsoleCursorPosition handle true (int16 value) 0 ;;
        leave n res
    end
  else if String.eqb cmd "D" then
    let '(value, err) := parseInt16OrDefault (getParam parsedCommand 0) 1 in
    match err with
    | Some e => ret (n, Some e)
    | None =>
        res <- setConsoleCursorPosition handle true (int16 (mul16 (-1) value)) 0 ;;
        leave n res
    end
  else if String.eqb cmd "J" then
    let '(value, err) := parseInt16OrDefault (getParam parsedCommand 0) 0 in
    match err with
    | Some e => ret (n, Some e)
    | None =>
        '(screenBufferInfo, err) <- GetConsoleScreenBufferInfo handle ;;
        match err, screenBufferInfo with
        | None, Some screenBufferInfo =>
            eraseWith n handle (eraseDisplayRange screenBufferInfo value)
                      (MaximumWindowSize screenBufferInfo)
        | None, None => panic "invalid memory address or nil pointer dereference"
        | Some _, _ => ret (n, None)
        end
    end
  else if String.eqb cmd "K" then
    let '(value, _) := parseInt16OrDefault (getParam parsedCommand 0) 0 in
    '(screenBufferInfo, err) <- GetConsoleScreenBufferInfo handle ;;
    match err, screenBufferInfo with
    | None, Some screenBufferInfo =>
        eraseWith n handle (eraseLineRange screenBufferInfo value)
                  (MaximumWindowSize screenBufferInfo)
    | None, None => panic "invalid memory address or nil pointer dereference"
    | Some _, _ => ret (n, None)
    end
  else if String.eqb cmd "l" then
    let value := getParam parsedCommand 0 in
    if String.eqb value "?25" then
      _ <- SetCursorVisible handle 0 ;; ret (n, None)
    else ret (n, None)
  else if String.eqb cmd "h" then
    let value := getParam parsedCommand 0 in
    if String.eqb value "?25" then
      _ <- SetCursorVisible handle 1 ;; ret (n, None)
    else ret (n, None)
  else ret (n, None).

End Output.

Arguments SetCursorVisible {W} k32 fileDesc isVisible _.
Arguments GetConsoleScreenBufferInfo {W} k32 fileDesc _.
Arguments setConsoleTextAttribute {W} k32 fileDesc attribute _.
Arguments fillConsoleOutputCharacter {W} k32 fileDesc fillChar length writeCord _.
Arguments clearDisplayRange {W} k32 fileDesc fillChar fromCoord toCoord windowSize _.
Arguments setConsoleCursorPosition {W} k32 fileDesc isRelative column line _.
Arguments leave {W} n res _.
Arguments eraseWith {W} k32 n handle range windowSize _.
Arguments HandleOutputCommand {W} k32 parseAnsiCommand getParam parseInt16OrDefault command _.

(** ** The key encoder *)

(** A Go string as the runes a [range] loop over it yields. *)
Definition runesOf (s : string) : list Z :=
  map (fun c => Z.of_nat (nat_of_ascii c)) (list_ascii_of_string s).

(** Go's [string(c)] of an integer: the one rune [c], or U+FFFD when [c]
    is no valid code point (for a [WCHAR], a surrogate). *)
Definition stringOfRune (c : Z) : list Z :=
  if (0xD800 <=? c) && (c <=? 0xDFFF) || (c <? 0) || (c >? 0x10FFFF)
  then [0xFFFD] else [c].

(** Go's [fmt.Sprintf(format, arg)] with one string operand, on formats
    made of plain text and [%s] verbs, which the formats of
    [keyMapPrefix] all are: the first [%s] takes the operand, a later
    one reports it missing, and an operand no verb took is appended as
    [%!(EXTRA string=...)]. The boolean tells whether the operand was
    taken. *)
Fixpoint sprintfWalk (format arg : string) (used : bool) : string * bool :=
  match format with
  | EmptyString => (EmptyString, used)
  | String "%"%char (String "s"%char rest) =>
      let '(out, u) := sprintfWalk rest arg true in
      (((if used then "%!s(MISSING)" else arg) ++ out)%string, u)
  | String c rest =>
      let '(out, u) := sprintfWalk rest arg used in (String c out, u)
  end.

Definition fmt_Sprintf (format arg : string) : string :=
  let '(out, used) := sprintfWalk format arg false in
  if used then out else (out ++ "%!(EXTRA string=" ++ arg ++ ")")%string.

(** [keyMapPrefix]; a Go map with distinct keys, here an association
    list in source order. *)
Definition keyMapPrefix : list (Z * string) :=
  [ (VK_UP, ESC ++ "[%sA");
    (VK_DOWN, ESC ++ "[%sB");
    (VK_RIGHT, ESC ++ "[%sC");
    (VK_LEFT, ESC ++ "[%sD");
    (VK_HOME, ESC ++ "[H%s~");
    (VK_END, ESC ++ "[F%s~");
    (VK_INSERT, ESC ++ "[2%s~");
    (VK_DELETE, ESC ++ "[3%s~");
    (VK_F1, "");
    (VK_F2, "");
    (VK_F3, ESC ++ "[13%s~");
    (VK_F4, ESC ++ "[14%s~");
    (VK_F5, ESC ++ "[15%s~");
    (VK_F6, ESC ++ "[17%s~");
    (VK_F7, ESC ++ "[18%s~");
    (VK_F8, ESC ++ "[19%s~");
    (VK_F9, ESC ++ "[20%s~");
    (VK_F10, ESC ++ "[21%s~");
    (VK_F11, ESC ++ "[23%s~");
    (VK_F12, ESC ++ "[24%s~") ]%string.

Definition keyMapLookup (key : Z) : option string :=
  match find (fun kv => fst kv =? key) keyMapPrefix with
  | Some kv => Some (snd kv)
  | None => None
  end.

Definition getControlStateParameter (shift alt control meta : bool) : string :=
  if shift && alt && control then KEY_CONTROL_PARAM_8
  else if alt && control then KEY_CONTROL_PARAM_7
  else if shift && control then KEY_CONTROL_PARAM_6
  else if control then KEY_CONTROL_PARAM_5
  else if shift && alt then KEY_CONTROL_PARAM_4
  else if alt then KEY_CONTROL_PARAM_3
  else if shift then KEY_CONTROL_PARAM_2
  else "".

Definition getControlKeys (controlState : Z) : bool * bool * bool :=
  let shift := negb (0 =? controlState .& SHIFT_PRESSED) in
  let alt :=
    negb (0 =? controlState .& (LEFT_ALT_PRESSED .| RIGHT_ALT_PRESSED)) in
  let control :=
    negb (0 =? controlState .& (LEFT_CTRL_PRESSED .| RIGHT_CTRL_PRESSED)) in
  (shift, alt, control).

Definition charSequenceForKeys (key controlState : Z) : string :=
  match keyMapLookup key with
  | Some i =>
      let '(shift, alt, control) := getControlKeys controlState in
      let modifier := getControlStateParameter shift alt control false in
      fmt_Sprintf i modifier
  | None => ""
  end.

(** One byte written at an index of a slice. *)
Fixpoint setIndex (p : list Z) (i : nat) (b : Z) : list Z :=
  match p, i with
  | [], _ => []
  | _ :: rest, O => b :: rest
  | x :: rest, S i' => x :: setIndex rest i' b
  end.

(** The inner loop of [ReadChars]: [p[charIndex] = byte(e)] for every
    rune of the key string; an index outside [p] panics. *)
Fixpoint writeRunes (keyString : list Z) (p : list Z) (charIndex : nat)
  : Outcome (list Z * nat) :=
  match keyString with
  | [] => Returned (p, charIndex)
  | e :: rest =>
      if (charIndex <? List.length p)%nat then
        writeRunes rest (setIndex p charIndex (e mod 256)) (S charIndex)
      else Panicked "index out of range"
  end.

(** ** The input direction *)

Section Input.

Variable W : Type.
Variable k32 : Kernel32 W.

(** Two names this file uses and does not declare: the event type of a
    key record and the lower-case table of Go's [unicode] package. *)
Variable KEY_EVENT : Z.
Variable unicode_ToLower : Z -> Z.

(** [strings.ToLower] on the runes of a string. *)
Definition strings_ToLower (s : list Z) : list Z := map unicode_ToLower s.

Definition mapKeystokeToTerminalString (keyEvent : KEY_EVENT_RECORD) : list Z :=
  let '(_, alt, control) := getControlKeys (ControlKeyState keyEvent) in
  if UnicodeChar keyEvent =? 0 then
    runesOf (charSequenceForKeys (VirtualKeyCode keyEvent)
                                 (ControlKeyState keyEvent))
  else if negb control && alt then
    runesOf KEY_ESC_N ++ strings_ToLower (stringOfRune (UnicodeChar keyEvent))
  else stringOfRune (UnicodeChar keyEvent).

(** The outer loop of [ReadChars], [todo] iterations from index [i]. *)
Fixpoint keystrokeLoop (todo i : nat) (inputBuffer : list INPUT_RECORD)
  (p : list Z) (charIndex : nat) : Outcome (list Z * nat) :=
  match todo with
  | O => Returned (p, charIndex)
  | S todo' =>
      match nth_error inputBuffer i with
      | None => Panicked "index out of range"
      | Some input =>
          let written :=
            if (EventType input =? KEY_EVENT)
               && (KeyDown (KeyEvent input) =? 1)
            then writeRunes (mapKeystokeToTerminalString (KeyEvent input))
                            p charIndex
            else Returned (p, charIndex) in
          match written with
          | Panicked msg => Panicked msg
          | Returned (p', charIndex') =>
              if (List.length p' <=? charIndex')%nat && (0 <? charIndex')%nat
              then Returned (p', charIndex')
              else keystrokeLoop todo' (S i) inputBuffer p' charIndex'
          end
      end
  end.

Definition getNumberOfConsoleInputEvents (fileDesc : Z) : M W (Z * option error) :=
  '(res, n) <- call (getNumberOfConsoleInputEventsProc k32 fileDesc) ;;
  if negb (r1 res =? 0) then ret (uint16 n, None)
  else ret (0, lastErr res).

(** The records the console wrote, over the buffer handed to it. *)
Definition fillBuffer (records inputBuffer : list INPUT_RECORD)
  : list INPUT_RECORD :=
  firstn (List.length inputBuffer) (records ++ skipn (List.length records) inputBuffer).

(** [readConsoleInputKey]; the buffer after the call is returned with the
    results. [&inputBuffer[0]] panics on an empty buffer. *)
Definition readConsoleInputKey (fileDesc : Z) (inputBuffer : list INPUT_RECORD)
  : M W ((Z * option error) * list INPUT_RECORD) :=
  match inputBuffer with
  | [] => panic "index out of range"
  | _ =>
      '(res, records, nr) <-
        call (readConsoleInputProc k32 fileDesc
                (uint16 (Z.of_nat (List.length inputBuffer)))) ;;
      let inputBuffer := fillBuffer records inputBuffer in
      if negb (r1 res =? 0) then ret ((uint16 nr, None), inputBuffer)
      else ret ((0, lastErr res), inputBuffer)
  end.

(** [ReadChars]: the result and the content of [p] after the call. *)
Definition ReadChars (p : list Z) : M W ((Z * option error) * list Z) :=
  '(handle, _) <- call (GetStdHandle k32 STD_INPUT_HANDLE) ;;
  '(nEvents, err) <- getNumberOfConsoleInputEvents handle ;;
  match err with
  | Some e => ret ((0, Some e), p)
  | None =>
      if 0 =? nEvents then ret ((0, None), p)
      else
        let inputBuffer := repeat zeroINPUT_RECORD (Z.to_nat (nEvents + 1)) in
        '((nr, err), inputBuffer) <- readConsoleInputKey handle inputBuffer ;;
        match err with
        | Some e => ret ((0, Some e), p)
        | None =>
            if 0 =? nr then ret ((0, None), p)
            else
              match keystrokeLoop (Z.to_nat nr) 0 inputBuffer p 0 with
              | Panicked msg => panic msg
              | Returned (p', charIndex) =>
                  ret ((Z.of_nat charIndex, None), p')
              end
        end
  end.

End Input.

Arguments getNumberOfConsoleInputEvents {W} k32 fileDesc _.
Arguments readConsoleInputKey {W} k32 fileDesc inputBuffer _.
Arguments ReadChars {W} k32 KEY_EVENT unicode_ToLower p _.

(** ** The helpers declared elsewhere, from the specification *)

Module Spec.

(** The strings between the [;] separators of a parameter list. *)
Fixpoint splitParams (s : string) : list string :=
  match s with
  | EmptyString => [EmptyString]
  | String c rest =>
      if Ascii.eqb c ";" then EmptyString :: splitParams rest
      else match splitParams rest with
           | [] => [String c EmptyString]
           | h :: t => String c h :: t
           end
  end.

(** A string without its last character, and that character. *)
Fixpoint unsnoc (s : string) : option (string * ascii) :=
  match s with
  | EmptyString => None
  | String c rest =>
      match unsnoc rest with
      | None => Some (EmptyString, c)
      | Some (body, final) => Some (String c body, final)
      end
  end.

(** Modelled from the spec: [parseAnsiCommand] is declared in another
    file of the package. Section 4.1: the command is the final byte of
    the sequence and the parameters are the [;]-separated strings before
    it, left to right, possibly none. *)
Definition parseAnsiCommand (command : string) : AnsiCommand :=
  match unsnoc command with
  | None => mkAnsiCommand "" []
  | Some (body, final) =>
      mkAnsiCommand (String final EmptyString)
        (match body with EmptyString => [] | _ => splitParams body end)
  end.

(** Modelled from the spec: the method [getParam] is declared in another
    file of the package. Section 3: the i-th parameter, or the empty
    string when it is absent. *)
Definition getParam (ac : AnsiCommand) (index : Z) : string :=
  if index <? 0 then ""
  else nth (Z.to_nat index) (Parameters ac) "".

(** Modelled from the spec: [parseInt16OrDefault] is declared in another
    file of the package. Sections 4.3 and 7: an absent parameter takes
    the default and is no error; one that does not parse takes the
    default and carries the parse error for the caller to pass on. *)
Definition parseInt16OrDefault (s : string) (defaultValue : Z) : Z * option error :=
  if String.eqb s "" then (defaultValue, None)
  else match strconv_ParseInt_10_16 s with
       | (parsedValue, None) => (int16 parsedValue, None)
       | (_, Some err) => (defaultValue, Some err)
       end.

(** [KEY_EVENT], the event type of a key record in the Win32 API. *)
Definition KEY_EVENT : Z := 0x0001.

(** The lower-case mapping on the ASCII letters; other runes are left
    as they are. *)
Definition asciiToLower (r : Z) : Z :=
  if (65 <=? r) && (r <=? 90) then r + 32 else r.

End Spec.

(** ** A simulated console *)

Module Sim.

(** The native calls a run makes, with their arguments. *)
Inductive NativeCall : Type :=
| CallGetStdHandle (nStdHandle : Z)
| CallGetConsoleScreenBufferInfo (fd : Z)
| CallSetConsoleCursorPosition (fd bits : Z)
| CallSetConsoleTextAttribute (fd attribute : Z)
| CallFillConsoleOutputCharacter (fd fillChar length coord : Z)
| CallReadConsoleInput (fd length : Z)
| CallGetNumberOfConsoleInputEvents (fd : Z)
| CallGetConsoleCursorInfo (fd : Z)
| CallSetConsoleCursorInfo (fd : Z) (info : CONSOLE_CURSOR_INFO).

(** A console: its screen buffer info, cursor info and pending input
    records, the procedures that fail (by name) and the calls made so
    far. *)
Record Console : Type := mkConsole {
  info : CONSOLE_SCREEN_BUFFER_INFO;
  cursorInfo : CONSOLE_CURSOR_INFO;
  pending : list INPUT_RECORD;
  failing : list string;
  log : list NativeCall
}.

Definition fails (name : string) (w : Console) : bool :=
  existsb (String.eqb name) (failing w).

Definition logged (c : NativeCall) (w : Console) : Console :=
  mkConsole (info w) (cursorInfo w) (pending w) (failing w) (log w ++ [c]).

Definition failure : CallResult := mkCallResult 0 (Some (Errno 6)).
Definition success : CallResult := mkCallResult 1 None.

Definition unmarshal (bits : Z) : COORD :=
  mkCOORD (int16 (bits mod 65536)) (int16 (bits / 65536)).

Definition withCursorPosition (c : COORD) (w : Console) : Console :=
  mkConsole
    (mkCSBI (Size (info w)) c (Attributes (info w)) (Window (info w))
            (MaximumWindowSize (info w)))
    (cursorInfo w) (pending w) (failing w) (log w).

Definition withAttributes (a : Z) (w : Console) : Console :=
  mkConsole
    (mkCSBI (Size (info w)) (CursorPosition (info w)) a (Window (info w))
            (MaximumWindowSize (info w)))
    (cursorInfo w) (pending w) (failing w) (log w).

Definition withCursorInfo (ci : CONSOLE_CURSOR_INFO) (w : Console) : Console :=
  mkConsole (info w) ci (pending w) (failing w) (log w).

Definition withPending (l : list INPUT_RECORD) (w : Console) : Console :=
  mkConsole (info w) (cursorInfo w) l (failing w) (log w).

Definition kernel : Kernel32 Console := {|
  GetStdHandle := fun n w => ((n, None), logged (CallGetStdHandle n) w);
  getConsoleScreenBufferInfoProc := fun fd w =>
    let w' := logged (CallGetConsoleScreenBufferInfo fd) w in
    if fails "GetConsoleScreenBufferInfo" w
    then ((failure, mkCSBI zeroCOORD zeroCOORD 0 (mkSMALL_RECT 0 0 0 0) zeroCOORD), w')
    else ((success, info w), w');
  setConsoleCursorPositionProc := fun fd bits w =>
    let w' := logged (CallSetConsoleCursorPosition fd bits) w in
    if fails "SetConsoleCursorPosition" w then (failure, w')
    else (success, withCursorPosition (unmarshal bits) w');
  setConsoleTextAttributeProc := fun fd attribute w =>
    let w' := logged (CallSetConsoleTextAttribute fd attribute) w in
    if fails "SetConsoleTextAttribute" w then (failure, w')
    else (success, withAttributes attribute w');
  fillConsoleOutputCharacterProc := fun fd fillChar length coord w =>
    let w' := logged (CallFillConsoleOutputCharacter fd fillChar length coord) w in
    if fails "FillConsoleOutputCharacterW" w then (failure, w')
    else (success, w');
  readConsoleInputProc := fun fd length w =>
    let w' := logged (CallReadConsoleInput fd length) w in
    if fails "ReadConsoleInputW" w then ((failure, [], 0), w')
    else
      let records := firstn (Z.to_nat length) (pending w) in
      ((success, records, Z.of_nat (List.length records)),
       withPending (skipn (Z.to_nat length) (pending w)) w');
  getNumberOfConsoleInputEventsProc := fun fd w =>
    let w' := logged (CallGetNumberOfConsoleInputEvents fd) w in
    if fails "GetNumberOfConsoleInputEvents" w then ((failure, 0), w')
    else ((success, Z.of_nat (List.length (pending w))), w');
  getConsoleCursorInfoProc := fun fd w =>
    let w' := logged (CallGetConsoleCursorInfo fd) w in
    if fails "GetConsoleCursorInfo" w then ((failure, mkCURSOR_INFO 0 0), w')
    else ((success, cursorInfo w), w');
  setConsoleCursorInfoProc := fun fd ci w =>
    let w' := logged (CallSetConsoleCursorInfo fd ci) w in
    if fails "SetConsoleCursorInfo" w then (failure, w')
    else (success, withCursorInfo ci w')
|}.

(** An 80 x 25 console with the cursor at column 10 of row 3, grey on
    black, and nothing pending. *)
Definition console0 : Console :=
  mkConsole
    (mkCSBI (mkCOORD 80 300) (mkCOORD 10 3) 7 (mkSMALL_RECT 0 0 79 24)
            (mkCOORD 80 25))
    (mkCURSOR_INFO 25 1) [] [] [].

Definition broken (names : list string) (w : Console) : Console :=
  mkConsole (info w) (cursorInfo w) (pending w) names (log w).

(** A key-down record. *)
Definition keyDown (virtualKeyCode unicodeChar controlKeyState : Z) : INPUT_RECORD :=
  mkINPUT_RECORD Spec.KEY_EVENT
    (mkKEY_EVENT_RECORD 1 1 virtualKeyCode 0 unicodeChar controlKeyState).

(** The dispatcher and the reader on the simulated console, with the
    helpers of the specification. *)
Definition handle (command : string) (w : Console)
  : Outcome (Z * option error) * Console :=
  HandleOutputCommand kernel Spec.parseAnsiCommand Spec.getParam
                      Spec.parseInt16OrDefault command w.

Definition read (p : list Z) (w : Console)
  : Outcome ((Z * option error) * list Z) * Console :=
  ReadChars kernel Spec.KEY_EVENT Spec.asciiToLower p w.

End Sim.

(** ** Decidable descriptions used by the statements *)

(** The value the [m] loop hands to the translator for a parameter. *)
Definition sgrValue (e : string) : Z := int16 (fst (strconv_ParseInt_10_16 e)).

Definition isSgrCase (v : Z) : bool := existsb (Z.eqb v) sgrCases.

(** Whether the [m] loop meets a value that is no case of the switch. *)
Definition hasUnknownSgr (parameters : list string) : bool :=
  negb (forallb (fun e => isSgrCase (sgrValue e)) parameters).

(** Equality test on the results of the translator. *)
Definition sameResult (o : Outcome (Z * option error)) (expected : Z) : bool :=
  match o with
  | Returned (f, None) => f =? expected
  | _ => false
  end.

(** A monadic computation that returns on every world, with a result
    that satisfies [P]. *)
Definition Returns {W A} (P : A -> Prop) (m : M W A) : Prop :=
  forall w, exists a w', m w = (Returned a, w') /\ P a.

(** The two shapes [GetConsoleScreenBufferInfo] returns: a snapshot and
    no error, or no snapshot and an error. *)
Definition snapshotOrError
  (r : option CONSOLE_SCREEN_BUFFER_INFO * option error) : Prop :=
  match r with
  | (Some _, None) | (None, Some _) => True
  | _ => False
  end.

(** The modifier string by the keys held, one line per combination. *)
Definition modifierTable (shift alt control : bool) : string :=
  match shift, alt, control with
  | true, true, true => ";8"
  | false, true, true => ";7"
  | true, false, true => ";6"
  | false, false, true => ";5"
  | true, true, false => ";4"
  | false, true, false => ";3"
  | true, false, false => ";2"
  | false, false, false => ""
  end.

(** The text before and after the first [%s] of a format. *)
Fixpoint holeOf (format : string) : option (string * string) :=
  match format with
  | EmptyString => None
  | String c rest =>
      match rest with
      | EmptyString => None
      | String c' rest' =>
          if Ascii.eqb c "%" && Ascii.eqb c' "s" then Some (EmptyString, rest')
          else match holeOf rest with
               | Some (pre, post) => Some (String c pre, post)
               | None => None
               end
      end
  end.

(** A key-down record of the given event type. *)
Definition keyDownOf (KEY_EVENT : Z) (keyEvent : KEY_EVENT_RECORD) : INPUT_RECORD :=
  mkINPUT_RECORD KEY_EVENT
    (mkKEY_EVENT_RECORD 1 (RepeatCount keyEvent) (VirtualKeyCode keyEvent)
       (VirtualScanCode keyEvent) (UnicodeChar keyEvent)
       (ControlKeyState keyEvent)).

(** * Properties *)

(** ** Machine integers *)

Lemma int16_small z : is_int16 z -> int16 z = z.
Proof.
  unfold is_int16, int16; intros H.
  rewrite Z.mod_small by lia. lia.
Qed.

Lemma int16_range z : is_int16 (int16 z).
Proof.
  unfold is_int16, int16.
  pose proof (Z.mod_pos_bound (z + 32768) 65536 ltac:(lia)). lia.
Qed.

Lemma uint32_small z : is_uint32 z -> uint32 z = z.
Proof. unfold is_uint32, uint32; intros H. now rewrite Z.mod_small. Qed.

Lemma uint32_wrap z : -4294967296 <= z < 0 -> uint32 z = z + 4294967296.
Proof.
  unfold uint32; intros H.
  rewrite <- (Z.mod_add z 1 4294967296) by lia.
  rewrite Z.mod_small; lia.
Qed.

Lemma sub16_small a b : 0 <= a <= 32767 -> 0 <= b <= 32767 -> sub16 a b = a - b.
Proof. intros; unfold sub16; apply int16_small; unfold is_int16; lia. Qed.

(** ** The clear-range calculator *)

Ltac bool_to_Z :=
  repeat match goal with
  | H : _ || _ = false |- _ => apply orb_false_elim in H; destruct H
  | H : _ || _ = true |- _ => apply orb_true_iff in H; destruct H
  | H : (_ <? _) = true |- _ => apply Z.ltb_lt in H
  | H : (_ <? _) = false |- _ => apply Z.ltb_ge in H
  | H : (_ >=? _) = true |- _ => rewrite Z.geb_leb in H; apply Z.leb_le in H
  | H : (_ >=? _) = false |- _ => rewrite Z.geb_leb in H; apply Z.leb_gt in H
  | H : (_ >? _) = true |- _ => rewrite Z.gtb_ltb in H; apply Z.ltb_lt in H
  | H : (_ >? _) = false |- _ => rewrite Z.gtb_ltb in H; apply Z.ltb_ge in H
  | H : (_ =? _) = true |- _ => apply Z.eqb_eq in H
  | H : (_ =? _) = false |- _ => apply Z.eqb_neq in H
  end.

Ltac split_guards :=
  repeat match goal with
  | |- context [if ?b then _ else _] =>
      let E := fresh "E" in destruct b eqn:E; bool_to_Z; try lia
  end.

Section ClearRange.

Variables fromCoord toCoord screenSize : COORD.

Lemma getNumberOfChars_guard :
  outOfBounds fromCoord screenSize \/ outOfBounds toCoord screenSize
  \/ Y fromCoord > Y toCoord ->
  getNumberOfChars fromCoord toCoord screenSize = 0.
Proof.
  unfold outOfBounds, getNumberOfChars; intros H.
  split_guards; reflexivity.
Qed.

Hypothesis Hsize : COORD_ok screenSize.
Hypothesis Hfrom : inBounds fromCoord screenSize.
Hypothesis Hto : inBounds toCoord screenSize.

Lemma getNumberOfChars_same_row_mod :
  Y fromCoord = Y toCoord ->
  getNumberOfChars fromCoord toCoord screenSize
  = (X toCoord - X fromCoord + 1) mod 4294967296.
Proof.
  destruct Hsize as [[? ?] [? ?]], Hfrom as [? ?], Hto as [? ?].
  unfold getNumberOfChars; intros HY.
  split_guards.
  unfold add32, sub16, uint32.
  rewrite int16_small by (unfold is_int16; lia).
  now rewrite Z.add_mod_idemp_l by lia.
Qed.

Lemma getNumberOfChars_same_row :
  Y fromCoord = Y toCoord -> X fromCoord <= X toCoord ->
  getNumberOfChars fromCoord toCoord screenSize
  = X toCoord - X fromCoord + 1.
Proof.
  destruct Hsize as [[? ?] [? ?]], Hfrom as [? ?], Hto as [? ?].
  intros HY HX. rewrite getNumberOfChars_same_row_mod by assumption.
  apply Z.mod_small; lia.
Qed.

Lemma getNumberOfChars_same_row_backwards :
  Y fromCoord = Y toCoord -> X fromCoord > X toCoord ->
  getNumberOfChars fromCoord toCoord screenSize
  = if X fromCoord - X toCoord =? 1 then 0
    else 4294967296 - (X fromCoord - X toCoord) + 1.
Proof.
  destruct Hsize as [[? ?] [? ?]], Hfrom as [? ?], Hto as [? ?].
  intros HY HX. rewrite getNumberOfChars_same_row_mod by assumption.
  destruct (Z.eqb_spec (X fromCoord - X toCoord) 1) as [E|E].
  - replace (X toCoord - X fromCoord + 1) with 0 by lia. reflexivity.
  - change (uint32 (X toCoord - X fromCoord + 1)
            = 4294967296 - (X fromCoord - X toCoord) + 1).
    rewrite uint32_wrap; lia.
Qed.

Lemma getNumberOfChars_multi_row :
  Y fromCoord < Y toCoord ->
  X screenSize * (Y toCoord - Y fromCoord - 1) <= 32767 ->
  getNumberOfChars fromCoord toCoord screenSize
  = (X screenSize - X fromCoord) + X toCoord + 1
    + X screenSize * (Y toCoord - Y fromCoord - 1).
Proof.
  destruct Hsize as [[? ?] [? ?]], Hfrom as [? ?], Hto as [? ?].
  unfold getNumberOfChars; intros HY Hfit.
  set (L := sub16 (sub16 (Y toCoord) (Y fromCoord)) 1).
  assert (HL : L = Y toCoord - Y fromCoord - 1)
    by (unfold L; rewrite (sub16_small (Y toCoord)), sub16_small; lia).
  rewrite (sub16_small (X screenSize)) by lia.
  clearbody L; subst L.
  unfold add32, mul16.
  split_guards.
  - assert (Hprod : 0 <= (Y toCoord - Y fromCoord - 1) * X screenSize <= 32767)
      by (split; [apply Z.mul_nonneg_nonneg; lia | lia]).
    rewrite int16_small by (unfold is_int16; lia).
    rewrite (uint32_small (X screenSize - X fromCoord)) by (unfold is_uint32; lia).
    rewrite (uint32_small (X toCoord)) by (unfold is_uint32; lia).
    rewrite (uint32_small (_ * _)) by (unfold is_uint32; lia).
    rewrite (uint32_small (_ + X toCoord)) by (unfold is_uint32; lia).
    rewrite (uint32_small (_ + 1)) by (unfold is_uint32; lia).
    rewrite uint32_small by (unfold is_uint32; lia). lia.
  - assert (Y toCoord - Y fromCoord - 1 = 0) as -> by lia.
    rewrite (uint32_small (X screenSize - X fromCoord)) by (unfold is_uint32; lia).
    rewrite (uint32_small (X toCoord)) by (unfold is_uint32; lia).
    rewrite (uint32_small (_ + X toCoord)) by (unfold is_uint32; lia).
    rewrite uint32_small by (unfold is_uint32; lia). lia.
Qed.

End ClearRange.

(** C3, as stated, fails: on a backwards range within one row the result
    is not [to.column - from.column + 1], and on a range whose middle
    rows hold more than 32767 cells it is not the multi-row sum. *)
Lemma C3_formula_counterexample :
  let size := mkCOORD 80 25 in
  let big := mkCOORD 200 300 in
  (inBounds (mkCOORD 5 0) size /\ inBounds (mkCOORD 2 0) size
   /\ getNumberOfChars (mkCOORD 5 0) (mkCOORD 2 0) size = 4294967294
   /\ 4294967294 <> 2 - 5 + 1)
  /\ (inBounds (mkCOORD 0 0) big /\ inBounds (mkCOORD 0 200) big
      /\ getNumberOfChars (mkCOORD 0 0) (mkCOORD 0 200) big = 4294941761
      /\ 4294941761 <> (200 - 0) + 0 + 1 + 200 * (200 - 0 - 1)).
Proof.
  unfold inBounds; cbn [X Y].
  repeat split; try lia; vm_compute; reflexivity.
Qed.

(** C3 (amended): [getNumberOfChars] returns 0 whenever a coordinate is
    negative or not below the buffer dimension, or [from] is on a later
    row than [to]; for in-bounds coordinates on one row with
    [from.column <= to.column] it returns [to.column - from.column + 1];
    for in-bounds coordinates with [from.row < to.row] and middle rows of
    at most 32767 cells in all it returns the multi-row sum; width 80,
    from (70,2), to (5,4) gives 96; a valid coordinate to itself gives
    1. *)
Theorem C3_getNumberOfChars_formula :
  forall fromCoord toCoord screenSize : COORD,
    COORD_ok screenSize ->
    (outOfBounds fromCoord screenSize \/ outOfBounds toCoord screenSize
     \/ Y fromCoord > Y toCoord ->
     getNumberOfChars fromCoord toCoord screenSize = 0)
    /\ (inBounds fromCoord screenSize -> inBounds toCoord screenSize ->
        Y fromCoord = Y toCoord -> X fromCoord <= X toCoord ->
        getNumberOfChars fromCoord toCoord screenSize
        = X toCoord - X fromCoord + 1)
    /\ (inBounds fromCoord screenSize -> inBounds toCoord screenSize ->
        Y fromCoord < Y toCoord ->
        X screenSize * (Y toCoord - Y fromCoord - 1) <= 32767 ->
        getNumberOfChars fromCoord toCoord screenSize
        = (X screenSize - X fromCoord) + X toCoord + 1
          + X screenSize * (Y toCoord - Y fromCoord - 1))
    /\ (X screenSize = 80 -> Y screenSize > 4 ->
        getNumberOfChars (mkCOORD 70 2) (mkCOORD 5 4) screenSize = 96)
    /\ (inBounds fromCoord screenSize ->
        getNumberOfChars fromCoord fromCoord screenSize = 1).
Proof.
  intros f t s Hs. repeat split.
  - apply getNumberOfChars_guard.
  - intros. now apply getNumberOfChars_same_row.
  - intros. now apply getNumberOfChars_multi_row.
  - intros HX HY.
    rewrite getNumberOfChars_multi_row; unfold inBounds; cbn [X Y]; try lia.
    assumption.
  - intros Hf. rewrite getNumberOfChars_same_row; auto; lia.
Qed.

(** The multi-row example of the specification, through the formula. *)
Lemma C3_getNumberOfChars_formula_witness :
  getNumberOfChars (mkCOORD 70 2) (mkCOORD 5 4) (mkCOORD 80 25)
  = (80 - 70) + 5 + 1 + 80 * (4 - 2 - 1).
Proof.
  refine (proj1 (proj2 (proj2
    (C3_getNumberOfChars_formula (mkCOORD 70 2) (mkCOORD 5 4) (mkCOORD 80 25) _)))
    _ _ _ _);
    unfold COORD_ok, is_int16, inBounds; cbn [X Y]; lia.
Defined.

(** ** The SGR attribute translator *)

Lemma check_from_sound (P : Z -> bool) :
  forall fuel z, check_from fuel z P = true ->
  forall x, z <= x < z + Z.of_nat fuel -> P x = true.
Proof.
  induction fuel as [|fuel IH]; intros z Hc x Hx.
  - simpl in Hx. lia.
  - cbn [check_from] in Hc. apply andb_true_iff in Hc as [Hz Hrest].
    destruct (Z.eq_dec x z) as [->|Hne]; [assumption|].
    apply (IH (z + 1)); [assumption|]. rewrite Nat2Z.inj_succ in Hx. lia.
Qed.

Lemma all_words_sound (P : Z -> bool) :
  all_words P = true -> forall x, is_uint16 x -> P x = true.
Proof.
  unfold all_words, is_uint16; intros H x Hx.
  apply (check_from_sound P _ 0 H). rewrite Z2Nat.id; lia.
Qed.

Lemma sameResult_eq o expected :
  sameResult o expected = true -> o = Returned (expected, None).
Proof.
  destruct o as [[f [e|]]|msg]; cbn; try discriminate.
  intros H. apply Z.eqb_eq in H. now subst.
Qed.

Lemma isSgrCase_true v : isSgrCase v = true <-> In v sgrCases.
Proof.
  unfold isSgrCase. rewrite existsb_exists. split.
  - intros (x & Hin & Heq). apply Z.eqb_eq in Heq. now subst.
  - intros Hin. exists v. split; [assumption | apply Z.eqb_refl].
Qed.

Lemma isSgrCase_false v : isSgrCase v = false <-> ~ In v sgrCases.
Proof.
  rewrite <- isSgrCase_true. destruct (isSgrCase v); intuition congruence.
Qed.

(** The arms of the switch are tried one comparison after the other. *)
Ltac next_case :=
  match goal with
  | |- context [if ?b then _ else _] =>
      let E := fresh "E" in destruct b eqn:E
  end.

(** A value that is no case label reaches the [default] arm. *)
Lemma translator_default bits v :
  ~ In v sgrCases ->
  getWindowsTextAttributeForAnsiValue bits v = Panicked "Should not reach here".
Proof.
  intros Hv. unfold getWindowsTextAttributeForAnsiValue. cbv zeta.
  generalize (if uint16 bits =? 0 then FOREGROUND_MASK_SET else uint16 bits).
  intros flag.
  repeat (next_case;
          [ exfalso; apply Hv; bool_to_Z; subst v; unfold sgrCases;
            cbn [In]; tauto | ]).
  reflexivity.
Qed.

(** A case label returns a word and no error. *)
Lemma translator_case bits v :
  In v sgrCases ->
  exists flag, getWindowsTextAttributeForAnsiValue bits v = Returned (flag, None).
Proof.
  intros Hv. unfold getWindowsTextAttributeForAnsiValue. cbv zeta.
  generalize (if uint16 bits =? 0 then FOREGROUND_MASK_SET else uint16 bits).
  intros flag.
  repeat (next_case; [eexists; reflexivity|]).
  exfalso. bool_to_Z. unfold sgrCases in Hv. cbn [In] in Hv.
  repeat (destruct Hv as [Hv|Hv]; [congruence|]). exact Hv.
Qed.

(** The translator has no path that returns an error. *)
Lemma translator_never_errs bits v flag err :
  getWindowsTextAttributeForAnsiValue bits v = Returned (flag, err) -> err = None.
Proof.
  destruct (isSgrCase v) eqn:E.
  - apply isSgrCase_true in E. destruct (translator_case bits v E) as [f Hf].
    rewrite Hf. congruence.
  - apply isSgrCase_false in E. rewrite (translator_default bits v E). discriminate.
Qed.

(** Reverse twice, on every word. *)
Lemma reverse_twice_widen bits :
  is_uint16 bits ->
  translateTwice bits ANSI_ATTR_REVERSE ANSI_ATTR_REVERSE
  = Returned (widen bits, None).
Proof.
  intros H. apply sameResult_eq.
  revert bits H.
  apply (all_words_sound
    (fun b => sameResult (translateTwice b ANSI_ATTR_REVERSE ANSI_ATTR_REVERSE)
                         (widen b))).
  vm_compute. reflexivity.
Qed.

Lemma widen_nonzero bits : is_uint16 bits -> bits <> 0 -> widen bits = bits.
Proof.
  unfold widen, uint16, is_uint16; intros H Hz.
  rewrite Z.mod_small by lia.
  destruct (Z.eqb_spec bits 0); [contradiction | reflexivity].
Qed.

(** C4, as stated, fails at the zero word: reversed twice it is the
    widened word [0x000F]. *)
Lemma C4_reverse_twice_zero_counterexample :
  is_uint16 0
  /\ translateTwice 0 ANSI_ATTR_REVERSE ANSI_ATTR_REVERSE = Returned (15, None)
  /\ 15 <> 0.
Proof. unfold is_uint16. repeat split; try lia; discriminate. Qed.

(** C4 (amended): for every 16-bit attribute word other than 0, the
    translator applied twice with SGR value 7 returns the word it started
    from; for the word 0 it returns [0x000F]. *)
Theorem C4_reverse_twice_nonzero :
  forall bits : Z,
    is_uint16 bits ->
    (bits <> 0 ->
     translateTwice bits ANSI_ATTR_REVERSE ANSI_ATTR_REVERSE
     = Returned (bits, None))
    /\ (bits = 0 ->
        translateTwice bits ANSI_ATTR_REVERSE ANSI_ATTR_REVERSE
        = Returned (0x000F, None)).
Proof.
  intros bits H. split.
  - intros Hz. rewrite reverse_twice_widen by assumption.
    now rewrite widen_nonzero.
  - intros ->. reflexivity.
Qed.

(** The word [0x8A71], underlined, with its two colour fields swapped
    and swapped back. *)
Lemma C4_reverse_twice_nonzero_witness :
  translateTwice 0x8A71 ANSI_ATTR_REVERSE ANSI_ATTR_REVERSE
  = Returned (0x8A71, None).
Proof.
  apply (C4_reverse_twice_nonzero 0x8A71); [unfold is_uint16; lia | discriminate].
Defined.

(** The foreground values 31 to 37 are a mask-and-set of the three
    colour bits, leaving every bit outside the foreground field. *)
Lemma foreground_mask_and_set bits v :
  is_uint16 bits -> ANSI_FOREGROUND_RED <= v <= ANSI_FOREGROUND_WHITE ->
  getWindowsTextAttributeForAnsiValue bits v
  = Returned ((widen bits .& FOREGROUND_MASK_UNSET) .| foregroundRGB v, None).
Proof.
  intros H Hv. apply sameResult_eq. revert bits H.
  unfold ANSI_FOREGROUND_RED, ANSI_FOREGROUND_WHITE in Hv.
  assert (Hcases : v = 31 \/ v = 32 \/ v = 33 \/ v = 34 \/ v = 35 \/ v = 36 \/ v = 37)
    by lia.
  repeat (destruct Hcases as [->|Hcases]; [
    apply (all_words_sound (fun b =>
      sameResult (getWindowsTextAttributeForAnsiValue b _)
                 ((widen b .& FOREGROUND_MASK_UNSET) .| foregroundRGB _)));
    vm_compute; reflexivity |]).
  subst v.
  apply (all_words_sound (fun b =>
    sameResult (getWindowsTextAttributeForAnsiValue b _)
               ((widen b .& FOREGROUND_MASK_UNSET) .| foregroundRGB _))).
  vm_compute; reflexivity.
Qed.

(** Value 39 sets the whole foreground field. *)
Lemma foreground_default_white bits :
  is_uint16 bits ->
  getWindowsTextAttributeForAnsiValue bits ANSI_FOREGROUND_DEFAULT
  = Returned (widen bits .| FOREGROUND_MASK_SET, None).
Proof.
  intros H. apply sameResult_eq. revert bits H.
  apply (all_words_sound (fun b =>
    sameResult (getWindowsTextAttributeForAnsiValue b ANSI_FOREGROUND_DEFAULT)
               (widen b .| FOREGROUND_MASK_SET))).
  vm_compute; reflexivity.
Qed.

(** Value 30 is an exclusive-or with the three colour bits. *)
Lemma foreground_black_toggles bits :
  is_uint16 bits ->
  getWindowsTextAttributeForAnsiValue bits ANSI_FOREGROUND_BLACK
  = Returned (widen bits .^ 7, None).
Proof.
  intros H. apply sameResult_eq. revert bits H.
  apply (all_words_sound (fun b =>
    sameResult (getWindowsTextAttributeForAnsiValue b ANSI_FOREGROUND_BLACK)
               (widen b .^ 7))).
  vm_compute; reflexivity.
Qed.

(** C5: on a red foreground ([0x0004]) SGR 30 returns [0x0003], green
    and blue set, where the claim has the three colour bits clear; the
    sibling value 32 on the same word does mask and set. *)
Theorem C5_black_on_red_foreground :
  getWindowsTextAttributeForAnsiValue 0x0004 ANSI_FOREGROUND_BLACK
  = Returned (0x0003, None)
  /\ 0x0003 .& (FOREGROUND_RED .| FOREGROUND_GREEN .| FOREGROUND_BLUE) <> 0
  /\ getWindowsTextAttributeForAnsiValue 0x0004 ANSI_FOREGROUND_GREEN
     = Returned (0x0002, None).
Proof. repeat split; discriminate. Qed.

(** ** The [m] loop *)

Lemma sgrFold_known parameters :
  forall flag,
    hasUnknownSgr parameters = false ->
    exists flag', sgrFold parameters flag = Returned (flag', None).
Proof.
  unfold hasUnknownSgr.
  induction parameters as [|e rest IH]; intros flag H; cbn [sgrFold].
  - now exists flag.
  - apply negb_false_iff in H. cbn [forallb] in H.
    apply andb_true_iff in H as [He Hrest].
    apply isSgrCase_true in He.
    destruct (translator_case flag (sgrValue e) He) as [f Hf].
    unfold sgrValue in Hf. rewrite Hf.
    apply IH. now apply negb_false_iff.
Qed.

Lemma sgrFold_unknown parameters :
  forall flag,
    hasUnknownSgr parameters = true ->
    sgrFold parameters flag = Panicked "Should not reach here".
Proof.
  unfold hasUnknownSgr.
  induction parameters as [|e rest IH]; intros flag H; cbn [sgrFold].
  - discriminate.
  - apply negb_true_iff in H. cbn [forallb] in H.
    destruct (isSgrCase (sgrValue e)) eqn:He.
    + apply isSgrCase_true in He.
      destruct (translator_case flag (sgrValue e) He) as [f Hf].
      unfold sgrValue in Hf. rewrite Hf.
      apply IH. now apply negb_true_iff.
    + apply isSgrCase_false in He.
      pose proof (translator_default flag (sgrValue e) He) as Hd.
      unfold sgrValue in Hd. now rewrite Hd.
Qed.

Lemma hasUnknownSgr_app pre e post :
  isSgrCase (sgrValue e) = false -> hasUnknownSgr (pre ++ e :: post) = true.
Proof.
  intros He. unfold hasUnknownSgr. apply negb_true_iff.
  rewrite forallb_app. cbn [forallb]. rewrite He.
  now rewrite andb_false_r.
Qed.

(** ** Reasoning in the monad *)

Section MonadFacts.

Context {W : Type}.

Lemma Returns_ret {A} (P : A -> Prop) (a : A) : P a -> Returns (W:=W) P (ret a).
Proof. intros H w. now exists a, w. Qed.

Lemma Returns_bind {A B} (Q : A -> Prop) (P : B -> Prop)
  (m : M W A) (k : A -> M W B) :
  Returns Q m -> (forall a, Q a -> Returns P (k a)) -> Returns P (bind m k).
Proof.
  intros Hm Hk w. destruct (Hm w) as (a & w1 & E & Ha).
  destruct (Hk a Ha w1) as (b & w2 & E2 & Hb).
  exists b, w2. unfold bind. rewrite E. now split.
Qed.

Lemma Returns_call {A} (f : W -> A * W) : Returns (fun _ => True) (call f).
Proof.
  intros w. unfold call. destruct (f w) as [a w']. now exists a, w'.
Qed.

Lemma Returns_weaken {A} (P Q : A -> Prop) (m : M W A) :
  Returns P m -> (forall a, P a -> Q a) -> Returns Q m.
Proof.
  intros Hm HPQ w. destruct (Hm w) as (a & w' & E & Ha).
  exists a, w'. auto.
Qed.

End MonadFacts.

(** One step through a computation of the dispatcher. *)
Ltac returns_step :=
  match goal with
  | |- Returns _ (ret _) => apply Returns_ret; try reflexivity; try exact I
  | |- Returns _ (bind (call _) _) =>
      eapply Returns_bind; [apply Returns_call | intros ? _]
  | |- Returns _ (match ?x with _ => _ end) => destruct x eqn:?
  end.

Section DispatcherFacts.

Variable W : Type.
Variable k32 : Kernel32 W.
Variable parseAnsiCommand : string -> AnsiCommand.
Variable getParam : AnsiCommand -> Z -> string.
Variable parseInt16OrDefault : string -> Z -> Z * option error.

Local Notation "'dispatch'" :=
  (HandleOutputCommand k32 parseAnsiCommand getParam parseInt16OrDefault).

Lemma SetCursorVisible_returns fileDesc isVisible :
  Returns (fun _ => True) (SetCursorVisible k32 fileDesc isVisible).
Proof. unfold SetCursorVisible. repeat returns_step. Qed.

Lemma GetConsoleScreenBufferInfo_returns fileDesc :
  Returns snapshotOrError (GetConsoleScreenBufferInfo k32 fileDesc).
Proof.
  unfold GetConsoleScreenBufferInfo. repeat returns_step.
  unfold errOrEINVAL. destruct (lastErr _); exact I.
Qed.

Lemma setConsoleTextAttribute_returns fileDesc attribute :
  Returns (fun _ => True) (setConsoleTextAttribute k32 fileDesc attribute).
Proof. unfold setConsoleTextAttribute. repeat returns_step. Qed.

Lemma fillConsoleOutputCharacter_returns fileDesc fillChar length writeCord :
  Returns (fun _ => True)
    (fillConsoleOutputCharacter k32 fileDesc fillChar length writeCord).
Proof. unfold fillConsoleOutputCharacter. repeat returns_step. Qed.

Lemma clearDisplayRange_returns fileDesc fillChar fromCoord toCoord windowSize :
  Returns (fun _ => True)
    (clearDisplayRange k32 fileDesc fillChar fromCoord toCoord windowSize).
Proof.
  unfold clearDisplayRange. cbv zeta.
  destruct (_ >? 0); [|repeat returns_step].
  eapply Returns_bind; [apply fillConsoleOutputCharacter_returns|].
  intros [r err] _. repeat returns_step.
Qed.

Lemma setConsoleCursorPosition_returns fileDesc isRelative column line :
  Returns (fun _ => True)
    (setConsoleCursorPosition k32 fileDesc isRelative column line).
Proof.
  unfold setConsoleCursorPosition.
  eapply Returns_bind; [apply GetConsoleScreenBufferInfo_returns|].
  intros [[sbi|] [e|]] H; try contradiction; repeat returns_step.
Qed.

Lemma leave_returns n res :
  Returns (W:=W) (fun r => fst r = n) (leave n res).
Proof. unfold leave. destruct res as [[|] err]; cbn; repeat returns_step. Qed.

Lemma eraseWith_returns n handle range windowSize :
  Returns (fun r => fst r = n) (eraseWith k32 n handle range windowSize).
Proof.
  unfold eraseWith. destruct range as [[start cursor] end_].
  eapply Returns_bind; [apply clearDisplayRange_returns|].
  intros [[|] err] _; cbn [negb]; [|repeat returns_step].
  eapply Returns_bind; [apply setConsoleCursorPosition_returns|].
  intros res _. apply leave_returns.
Qed.

(** A cursor branch: the native call, then [leave]. *)
Ltac cursor_branch :=
  repeat match goal with
  | |- Returns _ (ret _) => apply Returns_ret; reflexivity
  | |- Returns _ (leave _ _) => apply leave_returns
  | |- Returns _ (eraseWith _ _ _ _ _) => apply eraseWith_returns
  | |- Returns _ (bind (setConsoleCursorPosition _ _ _ _ _) _) =>
      eapply Returns_bind; [apply setConsoleCursorPosition_returns | intros ? _]
  | |- Returns _ (bind (setConsoleTextAttribute _ _ _) _) =>
      eapply Returns_bind; [apply setConsoleTextAttribute_returns | intros ? _]
  | |- Returns _ (bind (SetCursorVisible _ _ _) _) =>
      eapply Returns_bind; [apply SetCursorVisible_returns | intros ? _]
  | |- Returns _ (bind (GetConsoleScreenBufferInfo _ _) _) =>
      eapply Returns_bind;
      [apply GetConsoleScreenBufferInfo_returns
      | intros [[?|] [?|]] ?; try contradiction]
  | |- Returns _ (let (_, _) := ?x in _) => destruct x
  | |- Returns _ (match ?x with _ => _ end) => destruct x
  end.

(** Unless it is an [m] command with a value outside the switch, a
    command returns, and its first result is the length of the command. *)
Lemma HandleOutputCommand_returns command :
  String.eqb (Command (parseAnsiCommand command)) "m"
  && hasUnknownSgr (Parameters (parseAnsiCommand command)) = false ->
  Returns (fun r => fst r = Z.of_nat (String.length command))
          (dispatch command).
Proof.
  intros Hm. unfold HandleOutputCommand. cbv zeta.
  eapply Returns_bind; [apply Returns_call|]. intros [handle herr] _.
  destruct (String.eqb (Command (parseAnsiCommand command)) "m") eqn:Em.
  - cbn [andb] in Hm.
    destruct (sgrFold_known _ 0 Hm) as [flag Hflag]. rewrite Hflag.
    cursor_branch.
  - clear Hm. cursor_branch.
Qed.

(** An [m] command with a value outside the switch panics, after the
    handle lookup and before any console call. *)
Lemma HandleOutputCommand_panics command w :
  Command (parseAnsiCommand command) = "m" ->
  hasUnknownSgr (Parameters (parseAnsiCommand command)) = true ->
  dispatch command w
  = (Panicked "Should not reach here", snd (GetStdHandle k32 STD_OUTPUT_HANDLE w)).
Proof.
  intros Hm Hu. unfold HandleOutputCommand, bind, call. cbv zeta.
  destruct (GetStdHandle k32 STD_OUTPUT_HANDLE w) as [[handle herr] w1].
  rewrite Hm. cbn [String.eqb Ascii.eqb Bool.eqb]. cbv iota.
  now rewrite (sgrFold_unknown _ 0 Hu).
Qed.

End DispatcherFacts.

(** ** The dispatcher *)

Lemma sgrCases_documented v : In v sgrCases <-> In v sgrDocumented \/ v = 8.
Proof.
  unfold sgrCases, sgrDocumented. cbn [In].
  unfold ANSI_ATTR_RESET, ANSI_ATTR_INVISIBLE, ANSI_ATTR_UNDERLINE,
    ANSI_ATTR_BLINK, ANSI_ATTR_UNDERLINE_OFF, ANSI_ATTR_BLINK_OFF,
    ANSI_ATTR_BOLD, ANSI_ATTR_DIM, ANSI_ATTR_REVERSE, ANSI_ATTR_REVERSE_OFF,
    ANSI_FOREGROUND_DEFAULT, ANSI_FOREGROUND_BLACK, ANSI_FOREGROUND_RED,
    ANSI_FOREGROUND_GREEN, ANSI_FOREGROUND_YELLOW, ANSI_FOREGROUND_BLUE,
    ANSI_FOREGROUND_MAGENTA, ANSI_FOREGROUND_CYAN, ANSI_FOREGROUND_WHITE,
    ANSI_BACKGROUND_DEFAULT, ANSI_BACKGROUND_BLACK, ANSI_BACKGROUND_RED,
    ANSI_BACKGROUND_GREEN, ANSI_BACKGROUND_YELLOW, ANSI_BACKGROUND_BLUE,
    ANSI_BACKGROUND_MAGENTA, ANSI_BACKGROUND_CYAN, ANSI_BACKGROUND_WHITE.
  lia.
Qed.

Lemma int16_idem z : int16 (int16 z) = int16 z.
Proof. apply int16_small, int16_range. Qed.

Section DispatcherClaims.

Variable W : Type.
Variable k32 : Kernel32 W.
Variable parseAnsiCommand : string -> AnsiCommand.
Variable getParam : AnsiCommand -> Z -> string.
Variable parseInt16OrDefault : string -> Z -> Z * option error.

Local Notation "'dispatch'" :=
  (HandleOutputCommand k32 parseAnsiCommand getParam parseInt16OrDefault).

(** C1 (amended): for every attribute word and every SGR value that is
    neither in the documented table nor 8, the translator panics with
    "Should not reach here" and returns no error; an [m] command with
    such a value among its parameters panics at it, after the handle
    lookup and before any console call, whatever the parameters after
    it; the value 8 is a case of its own that returns the word it was
    given (widened when zero) and no error. *)
Theorem C1_unknown_sgr_panics :
  forall bits v : Z,
    ~ In v sgrDocumented -> v <> 8 ->
    getWindowsTextAttributeForAnsiValue bits v
    = Panicked "Should not reach here"
    /\ (forall command w pre e post,
          Command (parseAnsiCommand command) = "m" ->
          Parameters (parseAnsiCommand command) = pre ++ e :: post ->
          sgrValue e = v ->
          dispatch command w
          = (Panicked "Should not reach here",
             snd (GetStdHandle k32 STD_OUTPUT_HANDLE w)))
    /\ getWindowsTextAttributeForAnsiValue bits 8
       = Returned (widen bits, None).
Proof.
  intros bits v Hdoc H8.
  assert (Hv : ~ In v sgrCases) by (rewrite sgrCases_documented; tauto).
  split; [now apply translator_default|]. split; [|reflexivity].
  intros command w pre e post Hm Hps He.
  apply HandleOutputCommand_panics; [assumption|].
  rewrite Hps. apply hasUnknownSgr_app.
  rewrite He. now apply isSgrCase_false.
Qed.

(** The cursor-visibility branches drop the result of
    [SetCursorVisible]: whatever the console answers, no error is
    returned. *)
Lemma HandleOutputCommand_visibility_drops_error command w :
  Command (parseAnsiCommand command) = "l"
  \/ Command (parseAnsiCommand command) = "h" ->
  exists w',
    dispatch command w
    = (Returned (Z.of_nat (String.length command), None), w').
Proof.
  intros Hcmd. unfold HandleOutputCommand, bind, call. cbv zeta.
  destruct (GetStdHandle k32 STD_OUTPUT_HANDLE w) as [[handle herr] w1].
  destruct Hcmd as [-> | ->]; cbn [String.eqb Ascii.eqb Bool.eqb orb]; cbv iota;
    (destruct (String.eqb _ "?25"); [|eexists; reflexivity]);
    match goal with
    | |- context [SetCursorVisible k32 handle ?v w1] =>
        destruct (SetCursorVisible_returns W k32 handle v w1)
          as (a & w2 & E & _); rewrite E
    end;
    eexists; reflexivity.
Qed.

(** The erase-in-line branch drops the error of a failed snapshot
    call. *)
Lemma HandleOutputCommand_erase_line_drops_error command w w1 w2 handle herr res sbi :
  Command (parseAnsiCommand command) = "K" ->
  GetStdHandle k32 STD_OUTPUT_HANDLE w = ((handle, herr), w1) ->
  getConsoleScreenBufferInfoProc k32 handle w1 = ((res, sbi), w2) ->
  r1 res = 0 ->
  dispatch command w
  = (Returned (Z.of_nat (String.length command), None), w2).
Proof.
  intros HK Hstd Hsbi Hres. unfold HandleOutputCommand. cbv zeta.
  unfold bind at 1. unfold call at 1. rewrite Hstd, HK.
  cbn [String.eqb Ascii.eqb Bool.eqb orb]. cbv iota.
  destruct (parseInt16OrDefault _ 0) as [value perr].
  unfold bind, GetConsoleScreenBufferInfo, bind, call. rewrite Hsbi, Hres.
  cbn [Z.eqb]. unfold ret, errOrEINVAL. destruct (lastErr res); reflexivity.
Qed.

(** C7 (amended): for every command, either it is an [m] command with a
    parameter value outside the translator's switch, and the dispatcher
    panics without returning, or the dispatcher returns, with or without
    an error, and the byte count it returns is the length of the
    command. *)
Theorem C7_bytesConsumed_unless_panic :
  forall (command : string) (w : W),
    if String.eqb (Command (parseAnsiCommand command)) "m"
       && hasUnknownSgr (Parameters (parseAnsiCommand command))
    then dispatch command w
         = (Panicked "Should not reach here",
            snd (GetStdHandle k32 STD_OUTPUT_HANDLE w))
    else exists err w',
           dispatch command w
           = (Returned (Z.of_nat (String.length command), err), w').
Proof.
  intros command w.
  destruct (String.eqb _ "m" && hasUnknownSgr _) eqn:E.
  - apply andb_true_iff in E as [Em Eu]. apply String.eqb_eq in Em.
    now apply HandleOutputCommand_panics.
  - destruct (HandleOutputCommand_returns W k32 parseAnsiCommand getParam
                parseInt16OrDefault command E w) as ([n err] & w' & Hr & Hn).
    cbn in Hn. subst n. now exists err, w'.
Qed.

(** C8: for a [K] command whose parameter is 2 and a snapshot the
    console hands out, the clear range starts at column 0 and ends at
    column width - 1 of the row [maximum window height - 1], a row that
    does not depend on the cursor, and the cursor is then set to column
    0 of that row. The subtractions are those of [int16]. *)
Theorem C8_erase_line_2_range :
  forall (command : string) (w w1 w2 : W) (handle : Z)
         (herr perr : option error) (res : CallResult)
         (screenBufferInfo : CONSOLE_SCREEN_BUFFER_INFO),
    Command (parseAnsiCommand command) = "K" ->
    parseInt16OrDefault (getParam (parseAnsiCommand command) 0) 0 = (2, perr) ->
    GetStdHandle k32 STD_OUTPUT_HANDLE w = ((handle, herr), w1) ->
    getConsoleScreenBufferInfoProc k32 handle w1 = ((res, screenBufferInfo), w2) ->
    r1 res <> 0 ->
    let n := Z.of_nat (String.length command) in
    let row := sub16 (Y (MaximumWindowSize screenBufferInfo)) 1 in
    let start := mkCOORD 0 row in
    let end_ := mkCOORD (sub16 (X (MaximumWindowSize screenBufferInfo)) 1) row in
    eraseLineRange screenBufferInfo 2 = (start, mkCOORD 0 row, end_)
    /\ (-32768 < X (MaximumWindowSize screenBufferInfo) <= 32767 ->
        -32768 < Y (MaximumWindowSize screenBufferInfo) <= 32767 ->
        X end_ = X (MaximumWindowSize screenBufferInfo) - 1
        /\ row = Y (MaximumWindowSize screenBufferInfo) - 1)
    /\ dispatch command w
       = ('(r, err) <- clearDisplayRange k32 handle 32 start end_
                         (MaximumWindowSize screenBufferInfo) ;;
          if negb r then ret (n, err)
          else res <- setConsoleCursorPosition k32 handle false 0 row ;;
               leave n res) w2.
Proof.
  intros command w w1 w2 handle herr perr res sbi HK Hparse Hstd Hsbi Hres
         n row start end_.
  split; [reflexivity|]. split.
  - intros HX HY. subst end_ row. cbn [X]. unfold sub16.
    rewrite !int16_small by (unfold is_int16; lia). auto.
  - unfold HandleOutputCommand. cbv zeta.
    unfold bind at 1. unfold call at 1. rewrite Hstd.
    rewrite HK. cbn [String.eqb Ascii.eqb Bool.eqb orb]. cbv iota.
    rewrite Hparse.
    unfold bind at 1, GetConsoleScreenBufferInfo at 1, bind at 1, call at 1.
    rewrite Hsbi.
    apply Z.eqb_neq in Hres. rewrite Hres. unfold ret at 1.
    unfold eraseWith, eraseLineRange. cbn [Z.eqb Pos.eqb]. cbv iota.
    cbn [X Y]. fold row.
    replace (int16 0) with 0 by reflexivity.
    replace (int16 row) with row by (unfold row, sub16; now rewrite int16_idem).
    reflexivity.
Qed.

(** C10 (amended): on one row with [from.column > to.column], both in
    bounds, [getNumberOfChars] wraps: a column distance of 2 or more
    gives [2^32 - (from.column - to.column) + 1], which is not 0 and
    exceeds every buffer, and [clearDisplayRange] hands that count to
    the fill call; a distance of exactly 1 wraps to 0 and nothing is
    filled. *)
Theorem C10_backwards_same_row_wraps :
  forall (fileDesc fillChar : Z) (fromCoord toCoord screenSize : COORD),
    COORD_ok screenSize ->
    inBounds fromCoord screenSize -> inBounds toCoord screenSize ->
    Y fromCoord = Y toCoord -> X fromCoord > X toCoord ->
    let d := X fromCoord - X toCoord in
    (2 <= d ->
     getNumberOfChars fromCoord toCoord screenSize = 4294967296 - d + 1
     /\ getNumberOfChars fromCoord toCoord screenSize
        > X screenSize * Y screenSize
     /\ forall w,
          clearDisplayRange k32 fileDesc fillChar fromCoord toCoord screenSize w
          = let (res, w') :=
              fillConsoleOutputCharacterProc k32 fileDesc fillChar
                (4294967296 - d + 1) (marshal fromCoord) w in
            (Returned (if r1 res =? 0
                       then (false, errOrEINVAL (lastErr res))
                       else (true, None)), w'))
    /\ (d = 1 ->
        getNumberOfChars fromCoord toCoord screenSize = 0
        /\ forall w,
             clearDisplayRange k32 fileDesc fillChar fromCoord toCoord screenSize w
             = (Returned (true, None), w)).
Proof.
  intros fd ch f t s Hs Hf Ht HY HX d.
  pose proof (getNumberOfChars_same_row_backwards f t s Hs Hf Ht HY HX) as Hn.
  fold d in Hn.
  destruct Hs as [[? ?] [? ?]], Hf as [? ?], Ht as [? ?].
  split.
  - intros Hd. destruct (Z.eqb_spec d 1) as [E|E]; [lia|].
    split; [assumption|]. split; [rewrite Hn; nia|].
    intros w. unfold clearDisplayRange. rewrite Hn.
    destruct (4294967296 - d + 1 >? 0) eqn:Egt;
      [|rewrite Z.gtb_ltb in Egt; apply Z.ltb_ge in Egt; lia].
    unfold bind, fillConsoleOutputCharacter, bind, call.
    destruct (fillConsoleOutputCharacterProc _ _ _ _ _ _) as [res w'].
    destruct (r1 res =? 0); cbn [ret negb]; unfold ret.
    + unfold errOrEINVAL. destruct (lastErr res); reflexivity.
    + reflexivity.
  - intros Hd. rewrite Hd in Hn. cbn in Hn.
    split; [assumption|]. intros w. unfold clearDisplayRange. now rewrite Hn.
Qed.

End DispatcherClaims.

(** ** The dispatcher on the simulated console *)

(** C1, as stated, fails: 3 is not in the documented table, and the
    translator panics on it instead of returning an error, as does the
    [m] command that carries it; 8 is not in the table either, and is
    accepted without an error. *)
Lemma C1_unknown_sgr_counterexample :
  ~ In 3 sgrDocumented
  /\ getWindowsTextAttributeForAnsiValue 0 3 = Panicked "Should not reach here"
  /\ (forall flag err,
        getWindowsTextAttributeForAnsiValue 0 3 <> Returned (flag, Some err))
  /\ fst (Sim.handle "1;3;4m" Sim.console0) = Panicked "Should not reach here"
  /\ ~ In 8 sgrDocumented
  /\ getWindowsTextAttributeForAnsiValue 7 8 = Returned (7, None).
Proof.
  repeat split; try discriminate;
    unfold sgrDocumented; cbn [In]; intuition discriminate.
Qed.

(** The value 3 on the zero word, and the command [1;3;4m] on the
    simulated console: the log holds the handle lookup alone. *)
Lemma C1_unknown_sgr_panics_witness :
  getWindowsTextAttributeForAnsiValue 0 3 = Panicked "Should not reach here"
  /\ Sim.handle "1;3;4m" Sim.console0
     = (Panicked "Should not reach here",
        Sim.logged (Sim.CallGetStdHandle STD_OUTPUT_HANDLE) Sim.console0).
Proof.
  assert (Hdoc : ~ In 3 sgrDocumented)
    by (unfold sgrDocumented; cbn [In]; intuition discriminate).
  destruct (C1_unknown_sgr_panics Sim.Console Sim.kernel Spec.parseAnsiCommand
              Spec.getParam Spec.parseInt16OrDefault 0 3 Hdoc ltac:(discriminate))
    as (Htr & Hm & _).
  split; [exact Htr|].
  exact (Hm "1;3;4m" Sim.console0 ["1"] "3" ["4"] eq_refl eq_refl eq_refl).
Defined.

(** C6: with the console's cursor-info call failing, [?25l] and [?25h]
    return no error; with the snapshot call failing, [J] and [K] return
    no error; the cursor-up command, a sibling branch, returns the
    error of the same failed snapshot call. *)
Theorem C6_native_failure_not_returned :
  fst (Sim.handle "?25l" (Sim.broken ["GetConsoleCursorInfo"] Sim.console0))
  = Returned (4, None)
  /\ fst (Sim.handle "?25h" (Sim.broken ["SetConsoleCursorInfo"] Sim.console0))
     = Returned (4, None)
  /\ Sim.log (snd (Sim.handle "?25l"
                     (Sim.broken ["GetConsoleCursorInfo"] Sim.console0)))
     = [Sim.CallGetStdHandle STD_OUTPUT_HANDLE;
        Sim.CallGetConsoleCursorInfo STD_OUTPUT_HANDLE]
  /\ fst (Sim.handle "2J" (Sim.broken ["GetConsoleScreenBufferInfo"] Sim.console0))
     = Returned (2, None)
  /\ fst (Sim.handle "K" (Sim.broken ["GetConsoleScreenBufferInfo"] Sim.console0))
     = Returned (1, None)
  /\ fst (Sim.handle "5A" (Sim.broken ["GetConsoleScreenBufferInfo"] Sim.console0))
     = Returned (2, Some (Errno 6)).
Proof. repeat split. Qed.

(** C7, as stated, fails: the command [3m] does not return. *)
Lemma C7_unknown_sgr_counterexample :
  fst (Sim.handle "3m" Sim.console0) = Panicked "Should not reach here"
  /\ forall n err, fst (Sim.handle "3m" Sim.console0) <> Returned (n, err).
Proof. split; [reflexivity | discriminate]. Qed.

(** The command [2K] on the 80 x 25 console with the cursor on row 3:
    the range is row 24. *)
Lemma C8_erase_line_2_range_witness :
  let w2 :=
    Sim.logged (Sim.CallGetConsoleScreenBufferInfo STD_OUTPUT_HANDLE)
      (Sim.logged (Sim.CallGetStdHandle STD_OUTPUT_HANDLE) Sim.console0) in
  eraseLineRange (Sim.info Sim.console0) 2
  = (mkCOORD 0 24, mkCOORD 0 24, mkCOORD 79 24)
  /\ Sim.handle "2K" Sim.console0
     = ('(r, err) <- clearDisplayRange Sim.kernel STD_OUTPUT_HANDLE 32
                       (mkCOORD 0 24) (mkCOORD 79 24) (mkCOORD 80 25) ;;
        if negb r then ret (2, err)
        else res <- setConsoleCursorPosition Sim.kernel STD_OUTPUT_HANDLE
                      false 0 24 ;;
             leave 2 res) w2.
Proof.
  intros w2.
  pose proof (C8_erase_line_2_range Sim.Console Sim.kernel Spec.parseAnsiCommand
                Spec.getParam Spec.parseInt16OrDefault "2K" Sim.console0
                (Sim.logged (Sim.CallGetStdHandle STD_OUTPUT_HANDLE) Sim.console0)
                w2 STD_OUTPUT_HANDLE None None Sim.success (Sim.info Sim.console0)
                eq_refl eq_refl eq_refl eq_refl ltac:(discriminate)) as H.
  cbv zeta in H. destruct H as (Hrange & _ & Hrun).
  split; [exact Hrange | exact Hrun].
Defined.

(** C10, as stated, fails when the two columns are adjacent: the count
    wraps to 0. *)
Lemma C10_adjacent_columns_counterexample :
  let size := mkCOORD 80 25 in
  inBounds (mkCOORD 1 0) size /\ inBounds (mkCOORD 0 0) size
  /\ X (mkCOORD 1 0) > X (mkCOORD 0 0)
  /\ getNumberOfChars (mkCOORD 1 0) (mkCOORD 0 0) size = 0.
Proof. unfold inBounds; cbn [X Y]. repeat split; lia. Qed.

(** Three columns backwards on row 0 of an 80 x 25 buffer. *)
Lemma C10_backwards_same_row_wraps_witness :
  getNumberOfChars (mkCOORD 5 0) (mkCOORD 2 0) (mkCOORD 80 25)
  = 4294967296 - (5 - 2) + 1.
Proof.
  refine (proj1 (proj1
    (C10_backwards_same_row_wraps Sim.Console Sim.kernel STD_OUTPUT_HANDLE 32
       (mkCOORD 5 0) (mkCOORD 2 0) (mkCOORD 80 25) _ _ _ _ _) _));
    unfold COORD_ok, is_int16, inBounds; cbn [X Y]; lia.
Defined.

(** ** The key encoder *)

Lemma getControlStateParameter_table shift alt control meta :
  getControlStateParameter shift alt control meta
  = modifierTable shift alt control.
Proof. destruct shift, alt, control; reflexivity. Qed.

Lemma holeOf_sound format :
  forall pre post,
    holeOf format = Some (pre, post) -> format = (pre ++ "%s" ++ post)%string.
Proof.
  induction format as [|c rest IH]; intros pre post H; [discriminate|].
  cbn [holeOf] in H. destruct rest as [|c' rest']; [discriminate|].
  destruct (Ascii.eqb c "%" && Ascii.eqb c' "s") eqn:E.
  - apply andb_true_iff in E as [Ec Ec'].
    apply Ascii.eqb_eq in Ec, Ec'. subst c c'.
    now injection H as <- <-.
  - destruct (holeOf (String c' rest')) as [[pre' post']|]; [|discriminate].
    injection H as <- <-. cbn [String.append]. f_equal. now apply IH.
Qed.

(** Every format of the table is empty or has a [%s], which
    [fmt.Sprintf] replaces by its operand. *)
Lemma keyMapLookup_format key format :
  keyMapLookup key = Some format ->
  format = ""
  \/ exists pre post,
       holeOf format = Some (pre, post)
       /\ forall modifier,
            fmt_Sprintf format modifier = (pre ++ modifier ++ post)%string.
Proof.
  unfold keyMapLookup, keyMapPrefix. cbn [find fst snd].
  repeat match goal with
  | |- context [if ?b then _ else _] => destruct b
  end;
  intros H; try discriminate; injection H as <-;
  try (left; reflexivity);
  right; eexists; eexists; (split; [reflexivity | intros m; reflexivity]).
Qed.

(** C9, as stated, fails on its second example: up-arrow with Control
    held is the five bytes [ESC [ ; 5 A], not [ESC [ 5 A]. *)
Lemma C9_control_up_counterexample :
  let keyEvent := mkKEY_EVENT_RECORD 1 1 VK_UP 0 0 LEFT_CTRL_PRESSED in
  UnicodeChar keyEvent = 0
  /\ keyMapLookup (VirtualKeyCode keyEvent) <> None
  /\ mapKeystokeToTerminalString Spec.asciiToLower keyEvent
     = [27; 91; 59; 53; 65]
  /\ mapKeystokeToTerminalString Spec.asciiToLower keyEvent
     <> runesOf (ESC ++ "[5A").
Proof. repeat split; discriminate. Qed.

(** C9 (amended): for a key event with no unicode character whose
    virtual key code is in the table, the modifier segment is [;8] for
    shift+alt+control, [;7] for alt+control, [;6] for shift+control,
    [;5] for control, [;4] for shift+alt, [;3] for alt, [;2] for shift
    and empty with no modifier; for a key whose format is not empty the
    output is the format with the segment, semicolon included, in place
    of its [%s]; up-arrow with no modifier is [ESC [ A], and with
    Control held [ESC [ ; 5 A]. *)
Theorem C9_modifier_segment :
  forall (unicode_ToLower : Z -> Z) (keyEvent : KEY_EVENT_RECORD) (format : string),
    UnicodeChar keyEvent = 0 ->
    keyMapLookup (VirtualKeyCode keyEvent) = Some format ->
    let '(shift, alt, control) := getControlKeys (ControlKeyState keyEvent) in
    let modifier := getControlStateParameter shift alt control false in
    modifier = modifierTable shift alt control
    /\ (format <> "" -> holeOf format <> None)
    /\ (forall pre post,
          holeOf format = Some (pre, post) ->
          format = (pre ++ "%s" ++ post)%string
          /\ mapKeystokeToTerminalString unicode_ToLower keyEvent
             = runesOf (pre ++ modifier ++ post))
    /\ (VirtualKeyCode keyEvent = VK_UP ->
        (shift = false -> alt = false -> control = false ->
         mapKeystokeToTerminalString unicode_ToLower keyEvent = [27; 91; 65])
        /\ (shift = false -> alt = false -> control = true ->
            mapKeystokeToTerminalString unicode_ToLower keyEvent
            = [27; 91; 59; 53; 65])).
Proof.
  intros lower keyEvent format Hu Hkey.
  assert (Hmap : mapKeystokeToTerminalString lower keyEvent
                 = runesOf (charSequenceForKeys (VirtualKeyCode keyEvent)
                                                (ControlKeyState keyEvent))).
  { unfold mapKeystokeToTerminalString.
    destruct (getControlKeys _) as [[s a] c]. now rewrite Hu. }
  rewrite Hmap. unfold charSequenceForKeys. rewrite Hkey.
  destruct (getControlKeys (ControlKeyState keyEvent)) as [[shift alt] control].
  cbv zeta.
  destruct (keyMapLookup_format _ _ Hkey) as [E|(pre & post & E & Hs)].
  - subst format. split; [apply getControlStateParameter_table|].
    split; [congruence|]. split; [discriminate|].
    intros Hup. rewrite Hup in Hkey. discriminate.
  - split; [apply getControlStateParameter_table|].
    split; [congruence|]. split.
    + intros pre' post' E'. rewrite E in E'. injection E' as <- <-.
      split; [now apply holeOf_sound | now rewrite Hs].
    + intros Hup. rewrite Hup in Hkey. injection Hkey as <-.
      split; intros -> -> ->; reflexivity.
Qed.

(** Delete with Shift and the right Alt held. *)
Lemma C9_modifier_segment_witness :
  mapKeystokeToTerminalString Spec.asciiToLower
    (mkKEY_EVENT_RECORD 1 1 VK_DELETE 0 0 (SHIFT_PRESSED .| RIGHT_ALT_PRESSED))
  = runesOf (ESC ++ "[3" ++ ";4" ++ "~").
Proof.
  pose proof (C9_modifier_segment Spec.asciiToLower
                (mkKEY_EVENT_RECORD 1 1 VK_DELETE 0 0
                   (SHIFT_PRESSED .| RIGHT_ALT_PRESSED))
                (ESC ++ "[3%s~") eq_refl eq_refl) as H.
  destruct H as (_ & _ & Hout & _).
  exact (proj2 (Hout (ESC ++ "[3")%string "~" eq_refl)).
Defined.

(** ** The reader *)

Lemma setIndex_length p : forall i b, List.length (setIndex p i b) = List.length p.
Proof.
  induction p as [|x p IH]; intros [|i] b; cbn [setIndex List.length];
    auto using f_equal.
Qed.

(** A key string that fits is written whole, and the slice keeps its
    length. *)
Lemma writeRunes_fits keyString :
  forall p charIndex,
    (charIndex + List.length keyString <= List.length p)%nat ->
    exists p',
      writeRunes keyString p charIndex
      = Returned (p', (charIndex + List.length keyString)%nat)
      /\ List.length p' = List.length p.
Proof.
  induction keyString as [|e rest IH]; intros p charIndex H;
    cbn [writeRunes List.length] in *.
  - exists p. now rewrite Nat.add_0_r.
  - destruct (Nat.ltb_spec charIndex (List.length p)) as [Hlt|Hge]; [|lia].
    destruct (IH (setIndex p charIndex (e mod 256)) (S charIndex)) as (p' & E & L).
    + rewrite setIndex_length. lia.
    + exists p'. rewrite E, L, setIndex_length. split; [f_equal; f_equal; lia | reflexivity].
Qed.

(** A key string that does not fit runs into the end of the slice: the
    write at index [len(p)] panics. *)
Lemma writeRunes_overflow keyString :
  forall p charIndex,
    (charIndex <= List.length p)%nat ->
    (charIndex + List.length keyString > List.length p)%nat ->
    writeRunes keyString p charIndex = Panicked "index out of range".
Proof.
  induction keyString as [|e rest IH]; intros p charIndex Hle H;
    cbn [writeRunes List.length] in *.
  - lia.
  - destruct (Nat.ltb_spec charIndex (List.length p)) as [Hlt|Hge]; [|reflexivity].
    apply IH; rewrite setIndex_length; lia.
Qed.

(** The check after an event does not protect the event itself: one
    key-down event whose string is longer than the room left in [p]
    panics. *)
Lemma keystrokeLoop_overflow KEY_EVENT unicode_ToLower keyEvent rest todo p charIndex :
  (charIndex <= List.length p)%nat ->
  (charIndex
   + List.length (mapKeystokeToTerminalString unicode_ToLower
                    (KeyEvent (keyDownOf KEY_EVENT keyEvent)))
   > List.length p)%nat ->
  keystrokeLoop KEY_EVENT unicode_ToLower (S todo) 0
    (keyDownOf KEY_EVENT keyEvent :: rest) p charIndex
  = Panicked "index out of range".
Proof.
  intros Hle H. cbn [keystrokeLoop nth_error].
  unfold keyDownOf at 1 2. cbn [EventType KeyEvent KeyDown].
  rewrite Z.eqb_refl. cbn [andb Z.eqb Pos.eqb].
  now rewrite writeRunes_overflow.
Qed.

(** C2: a one-byte buffer and one pending up-arrow key-down, whose
    string is the three bytes [ESC [ A]: the reader writes [p[0]],
    attempts [p[1]] and panics; a three-byte buffer takes the same
    event. *)
Theorem C2_key_longer_than_buffer_panics :
  let up := Sim.keyDown VK_UP 0 0 in
  mapKeystokeToTerminalString Spec.asciiToLower (KeyEvent up) = [27; 91; 65]
  /\ writeRunes [27; 91; 65] [0] 0 = Panicked "index out of range"
  /\ fst (Sim.read [0] (Sim.withPending [up] Sim.console0))
     = Panicked "index out of range"
  /\ fst (Sim.read [0; 0; 0] (Sim.withPending [up] Sim.console0))
     = Returned ((3, None), [27; 91; 65]).
Proof. repeat split. Qed.
